(** * Safari history: redirect-chain analysis and indicator matching

    A shallow embedding of [SafariHistory._find_injections] and
    [SafariHistory.check_indicators] from
    [mvt/ios/modules/mixed/safari_history.py], with the properties of the
    design document stated over it.

    Python values are modelled as follows.
    - [int] is [Z]; a nullable integer column is [option Z] ([None] is
      Python's [None]).
    - [str] is [string], the bytes of the text; only [lower] and
      [startswith] are used, and only to test the prefix http://, whose
      seven characters are ASCII and are the lower case of ASCII letters
      only, so that lowering the ASCII letters decides the test.
    - a naive [datetime] is the number of microseconds since the epoch, a
      [Z]; the difference of two of them is a normalised [timedelta].
    - a raised exception ends the computation: what had been logged and
      appended before it stays. *)

From Stdlib Require Import ZArith List String Ascii Bool Lia.
From Stdlib Require Import Permutation Sorted.
From Stdlib Require DecimalString DecimalZ.
Import ListNotations.

Local Open Scope string_scope.
Local Open Scope Z_scope.

(** ** Python strings *)

Module Str.

(** One character of [str.lower()], on ASCII. *)
Definition lower_char (c : ascii) : ascii :=
  let n := nat_of_ascii c in
  if (Nat.leb 65 n && Nat.leb n 90)%bool then ascii_of_nat (n + 32) else c.

Fixpoint lower (s : string) : string :=
  match s with
  | EmptyString => EmptyString
  | String c s' => String (lower_char c) (lower s')
  end.

(** [s.startswith(p)]. *)
Definition startswith (s p : string) : bool := String.prefix p s.

End Str.

(** ** [datetime.timedelta] *)

Module timedelta.

(** A timedelta is kept normalised: [0 <= seconds < 86400] and
    [0 <= microseconds < 1000000]; [days] carries the sign. *)
Record t : Type := mk { days : Z; seconds : Z; microseconds : Z }.

Definition of_microseconds (us : Z) : t :=
  {| days := us / 86400000000;
     seconds := (us / 1000000) mod 86400;
     microseconds := us mod 1000000 |}.

Definition total_microseconds (d : t) : Z :=
  (days d * 86400 + seconds d) * 1000000 + microseconds d.

End timedelta.

(** A naive [datetime], in microseconds since the epoch. *)
Definition datetime : Type := Z.

(** ** Exceptions and effects *)

Inductive PyError : Type :=
| TypeError.

Inductive Completion (A : Type) : Type :=
| Returned (a : A)
| Raised (e : PyError).

Arguments Returned {A} a.
Arguments Raised {A} e.

Section Effects.

(** [St] is the state of the object ([self]); [Ev] the observable
    actions, recorded in the order they happen. *)
Context {St Ev : Type}.

Record Outcome (A : Type) : Type := mkOutcome {
  final : St;
  trace : list Ev;
  completion : Completion A
}.

Arguments mkOutcome {A}.
Arguments final {A}.
Arguments trace {A}.
Arguments completion {A}.

Definition M (A : Type) : Type := St -> Outcome A.

Definition ret {A} (a : A) : M A :=
  fun s => mkOutcome s [] (Returned a).

Definition raise {A} (e : PyError) : M A :=
  fun s => mkOutcome s [] (Raised e).

Definition bind {A B} (m : M A) (k : A -> M B) : M B :=
  fun s =>
    let o := m s in
    match completion o with
    | Raised e => mkOutcome (final o) (trace o) (Raised e)
    | Returned a =>
        let o' := k a (final o) in
        mkOutcome (final o') (trace o ++ trace o') (completion o')
    end.

Definition get : M St :=
  fun s => mkOutcome s [] (Returned s).

(** Perform the observable action [e], which changes the state by [f]. *)
Definition act (e : Ev) (f : St -> St) : M unit :=
  fun s => mkOutcome (f s) [e] (Returned tt).

(** A computation that leaves the state as it found it. *)
Definition preserving {A} (m : M A) : Prop :=
  forall s, final (m s) = s.

(** [for x in xs: body(x)]; a [continue] is a [body] that returns. *)
Fixpoint for_each {A} (body : A -> M unit) (xs : list A) : M unit :=
  match xs with
  | [] => ret tt
  | x :: xs' => bind (body x) (fun _ => for_each body xs')
  end.

End Effects.

Arguments Outcome : clear implicits.
Arguments M : clear implicits.
Arguments mkOutcome {St Ev A}.
Arguments final {St Ev A}.
Arguments trace {St Ev A}.
Arguments completion {St Ev A}.

Declare Scope py_scope.
Delimit Scope py_scope with py.
Notation "x <- m ;; k" := (bind m (fun x => k))
  (at level 61, m at next level, right associativity) : py_scope.
Notation "m ;; k" := (bind m (fun _ => k))
  (at level 61, right associativity) : py_scope.
Local Open Scope py_scope.

(** ** The module *)

Section SafariHistory.

(** [history_visits.visit_time] is kept as the store gives it. *)
Variable Timestamp : Type.

(** [mvt.common.utils.convert_mactime_to_unix]: the [datetime] of a
    store time, or [None]. *)
Variable convert_mactime_to_unix : Timestamp -> option datetime.

(** [mvt.common.url.URL(url).domain]: the domain of a URL, or [None]
    when none can be extracted. *)
Variable URL_domain : string -> option string.

(** One row of the query of [run], as the dictionary built there. *)
Record VisitRecord : Type := mkVisit {
  id : Z;
  url : string;
  visit_id : Z;
  timestamp : Timestamp;
  isodate : string;
  redirect_source : option Z;
  redirect_destination : option Z
}.

(** [self.indicators], when configured: an object, true as a condition,
    whose [check_domain] answers for a URL. *)
Record Indicators : Type := mkIndicators {
  check_domain : string -> bool
}.

(** The fields of [self] the two methods touch. *)
Record Self : Type := mkSelf {
  results : list VisitRecord;
  detected : list VisitRecord;
  indicators : option Indicators
}.

(** The two calls made on [self.log], with their arguments. The warning
    formats [elapsed_ms], the quotient of [microseconds] by 1000, with
    [%d], which prints its whole part: [LogWarning] carries that integer. *)
Inductive LogEvent : Type :=
| LogInfo (origin_domain redirect_domain : option string)
| LogWarning (elapsed_ms : Z).

Inductive Event : Type :=
| Logged (e : LogEvent)
| Appended (r : VisitRecord).

Definition Run (A : Type) : Type := M Self Event A.

Definition log_info (o r : option string) : Run unit :=
  act (Logged (LogInfo o r)) (fun s => s).

Definition log_warning (ms : Z) : Run unit :=
  act (Logged (LogWarning ms)) (fun s => s).

(** [self.detected.append(r)]. *)
Definition append_detected (r : VisitRecord) : Run unit :=
  act (Appended r)
      (fun s => {| results := results s;
                   detected := detected s ++ [r];
                   indicators := indicators s |}).

(** Truth value of a nullable integer: [None] and [0] are false. *)
Definition truthy (d : option Z) : bool :=
  match d with
  | None => false
  | Some v => negb (v =? 0)
  end.

(** [vid != d] for an integer [vid]. *)
Definition py_ne (vid : Z) (d : option Z) : bool :=
  match d with
  | None => true
  | Some v => negb (vid =? v)
  end.

(** [a == b] on domains ([str] or [None]). *)
Definition domain_eqb (a b : option string) : bool :=
  match a, b with
  | None, None => true
  | Some x, Some y => String.eqb x y
  | _, _ => false
  end.

(** [a - b] on the results of [convert_mactime_to_unix]. *)
Definition datetime_sub (a b : option datetime) : Run timedelta.t :=
  match a, b with
  | Some x, Some y => ret (timedelta.of_microseconds (x - y))
  | _, _ => raise TypeError
  end.

Definition is_plain_http (u : string) : bool :=
  Str.startswith (Str.lower u) "http://".

(** Body of the inner loop of [_find_injections]. *)
Definition inspect_redirect (result : VisitRecord)
    (origin_domain : option string) (redirect : VisitRecord) : Run unit :=
  if py_ne (visit_id redirect) (redirect_destination result) then ret tt
  else
    let redirect_domain := URL_domain (url redirect) in
    if domain_eqb origin_domain redirect_domain then ret tt
    else
      log_info origin_domain redirect_domain ;;
      let redirect_time := convert_mactime_to_unix (timestamp redirect) in
      let origin_time := convert_mactime_to_unix (timestamp result) in
      elapsed_time <- datetime_sub redirect_time origin_time ;;
      let elapsed_ms := timedelta.microseconds elapsed_time / 1000 in
      if timedelta.seconds elapsed_time =? 0
      then log_warning elapsed_ms
      else ret tt.

(** Body of the outer loop of [_find_injections]. *)
Definition inspect_result (result : VisitRecord) : Run unit :=
  if negb (is_plain_http (url result)) then ret tt
  else if negb (truthy (redirect_destination result)) then ret tt
  else
    let origin_domain := URL_domain (url result) in
    self <- get ;;
    for_each (inspect_redirect result origin_domain) (results self).

Definition _find_injections : Run unit :=
  self <- get ;;
  for_each inspect_result (results self).

(** Body of the loop of [check_indicators]. *)
Definition match_result (ind : Indicators) (result : VisitRecord)
    : Run unit :=
  if check_domain ind (url result) then append_detected result
  else ret tt.

Definition check_indicators : Run unit :=
  _find_injections ;;
  self <- get ;;
  match indicators self with
  | None => ret tt
  | Some ind => for_each (match_result ind) (results self)
  end.

(** ** Vocabulary of the properties *)

(** The diagnostics among the actions of a run, oldest first. *)
Definition logged (e : Event) : list LogEvent :=
  match e with
  | Logged l => [l]
  | Appended _ => []
  end.

Definition diagnostics (tr : list Event) : list LogEvent :=
  flat_map logged tr.

(** The records appended to [self.detected] by a run, oldest first. *)
Definition appended_by (e : Event) : list VisitRecord :=
  match e with
  | Logged _ => []
  | Appended r => [r]
  end.

Definition appended (tr : list Event) : list VisitRecord :=
  flat_map appended_by tr.

Definition is_logged (e : Event) : Prop :=
  match e with
  | Logged _ => True
  | Appended _ => False
  end.

(** [redirect] is the record [origin] redirects to. *)
Definition redirects_to (origin redirect : VisitRecord) : bool :=
  negb (py_ne (visit_id redirect) (redirect_destination origin)).

(** The pair is one chain analysis reports: a plain-HTTP origin with a
    redirect destination, found, on another domain. *)
Definition cross_domain (origin redirect : VisitRecord) : bool :=
  (is_plain_http (url origin)
   && truthy (redirect_destination origin)
   && redirects_to origin redirect
   && negb (domain_eqb (URL_domain (url origin))
                       (URL_domain (url redirect))))%bool.

(** Elapsed time from [origin] to [redirect], in microseconds of
    absolute time, when both times convert. *)
Definition elapsed (origin redirect : VisitRecord) : option Z :=
  match convert_mactime_to_unix (timestamp redirect),
        convert_mactime_to_unix (timestamp origin) with
  | Some r, Some o => Some (r - o)
  | _, _ => None
  end.

(** No record of [rs] has the visit id [origin] redirects to. *)
Definition dangling (rs : list VisitRecord) (origin : VisitRecord) : Prop :=
  Forall (fun r => redirects_to origin r = false) rs.

(** [self] with another sequence of results. *)
Definition with_results (s : Self) (rs : list VisitRecord) : Self :=
  {| results := rs; detected := detected s; indicators := indicators s |}.

(** [r] with its [redirect_destination] replaced. *)
Definition with_destination (r : VisitRecord) (d : option Z) : VisitRecord :=
  {| id := id r; url := url r; visit_id := visit_id r;
     timestamp := timestamp r; isodate := isodate r;
     redirect_source := redirect_source r;
     redirect_destination := d |}.

(** The order of the store on visit times, [ORDER BY visit_time]. *)
Variable ts_le : Timestamp -> Timestamp -> Prop.

Definition ascending (rs : list VisitRecord) : Prop :=
  StronglySorted (fun a b => ts_le (timestamp a) (timestamp b)) rs.

End SafariHistory.

Arguments mkVisit {Timestamp}.
Arguments id {Timestamp}.
Arguments url {Timestamp}.
Arguments visit_id {Timestamp}.
Arguments timestamp {Timestamp}.
Arguments isodate {Timestamp}.
Arguments redirect_source {Timestamp}.
Arguments redirect_destination {Timestamp}.
Arguments mkSelf {Timestamp}.
Arguments results {Timestamp}.
Arguments detected {Timestamp}.
Arguments indicators {Timestamp}.
Arguments Logged {Timestamp}.
Arguments Appended {Timestamp}.
Arguments log_info {Timestamp}.
Arguments log_warning {Timestamp}.
Arguments append_detected {Timestamp}.
Arguments datetime_sub {Timestamp}.
Arguments inspect_redirect {Timestamp}.
Arguments inspect_result {Timestamp}.
Arguments _find_injections {Timestamp}.
Arguments match_result {Timestamp}.
Arguments check_indicators {Timestamp}.
Arguments logged {Timestamp}.
Arguments diagnostics {Timestamp}.
Arguments appended_by {Timestamp}.
Arguments appended {Timestamp}.
Arguments is_logged {Timestamp}.
Arguments redirects_to {Timestamp}.
Arguments cross_domain {Timestamp}.
Arguments elapsed {Timestamp}.
Arguments dangling {Timestamp}.
Arguments with_results {Timestamp}.
Arguments with_destination {Timestamp}.
Arguments ascending {Timestamp}.

(** ** A concrete store, to run the code on *)

Module Store.

(** Visit times in microseconds since 2001-01-01, the epoch of the
    store. *)
Definition Timestamp : Type := Z.

(** Modelled from the spec: [mvt.common.utils.convert_mactime_to_unix]
    is not part of the module; it converts the store-native time to an
    absolute Unix-epoch time, here by adding the 978307200 seconds
    between the two epochs. *)
Definition convert_mactime_to_unix (t : Timestamp) : option datetime :=
  Some (t + 978307200 * 1000000).

(** Modelled from the spec: [mvt.common.url.URL] is not part of the
    module; the domain of [scheme://host/path] is taken to be [host],
    lower-cased, and there is none without [://] or with an empty host.
    It is run below only on URLs whose host is a registrable domain. *)
Definition URL_domain (u : string) : option string :=
  match String.index 0 "://" u with
  | None => None
  | Some i =>
      let rest := String.substring (i + 3) (String.length u) u in
      let host := match String.index 0 "/" rest with
                  | Some j => String.substring 0 j rest
                  | None => rest
                  end in
      match host with
      | EmptyString => None
      | _ => Some (Str.lower host)
      end
  end.

Definition ts_le : Timestamp -> Timestamp -> Prop := Z.le.

Definition visit (vid : Z) (u : string) (t : Timestamp)
    (dest : option Z) : VisitRecord Timestamp :=
  {| id := vid; url := u; visit_id := vid; timestamp := t;
     isodate := ""; redirect_source := None;
     redirect_destination := dest |}.

Definition self_of (rs : list (VisitRecord Timestamp))
    (ind : option Indicators) : Self Timestamp :=
  {| results := rs; detected := []; indicators := ind |}.

Definition find_injections (rs : list (VisitRecord Timestamp)) :=
  _find_injections convert_mactime_to_unix URL_domain (self_of rs None).

(** A time of day on the device, 2021-07-01 12:00:00 UTC. *)
Definition T0 : Timestamp := 646833600 * 1000000.

(** An HTTP visit redirected to visit 2. *)
Definition origin_a : VisitRecord Timestamp :=
  visit 1 "http://a.com" T0 (Some 2).

(** Visit 2 on the same domain, half a second later: an upgrade. *)
Definition upgrade : list (VisitRecord Timestamp) :=
  [origin_a; visit 2 "https://a.com" (T0 + 500000) None].

(** Visit 2 on another domain, 0.3 s later. *)
Definition redirect_b : VisitRecord Timestamp :=
  visit 2 "https://b.com" (T0 + 300000) None.

Definition fast_redirect : list (VisitRecord Timestamp) :=
  [origin_a; redirect_b].

(** Visit 2 on another domain, 5 s later. *)
Definition slow_redirect : list (VisitRecord Timestamp) :=
  [origin_a; visit 2 "https://b.com" (T0 + 5000000) None].

(** Visit 2 on another domain, one day and 0.3 s later. *)
Definition late_redirect_b : VisitRecord Timestamp :=
  visit 2 "https://b.com" (T0 + 86400 * 1000000 + 300000) None.

Definition late_redirect : list (VisitRecord Timestamp) :=
  [origin_a; late_redirect_b].

(** An HTTP visit redirected to a visit the sequence does not hold. *)
Definition origin_lost : VisitRecord Timestamp :=
  visit 1 "http://a.com" T0 (Some 9).

Definition lost_redirect : list (VisitRecord Timestamp) :=
  [origin_lost; redirect_b].

(** An HTTPS visit with a redirect to another domain. *)
Definition origin_https : VisitRecord Timestamp :=
  visit 1 "HTTPS://a.com" T0 (Some 2).

(** An HTTP visit whose redirect destination is 0, and a visit 0 on
    another domain. *)
Definition origin_zero : VisitRecord Timestamp :=
  visit 1 "http://a.com" T0 (Some 0).

Definition zero_redirect : list (VisitRecord Timestamp) :=
  [origin_zero; visit 0 "https://b.com" (T0 + 300000) None].

(** Two HTTP visits at the same time, each redirected to another domain;
    the store may list the two in either order. *)
Definition origin_c : VisitRecord Timestamp :=
  visit 3 "http://c.com" T0 (Some 4).

Definition redirect_d : VisitRecord Timestamp :=
  visit 4 "https://d.com" (T0 + 400000) None.

Definition tie_ac : list (VisitRecord Timestamp) :=
  [origin_a; origin_c; redirect_b; redirect_d].

Definition tie_ca : list (VisitRecord Timestamp) :=
  [origin_c; origin_a; redirect_b; redirect_d].

(** The four visits at distinct times. *)
Definition no_tie : list (VisitRecord Timestamp) :=
  [origin_a; redirect_b; redirect_d;
   visit 3 "http://c.com" (T0 + 500000) (Some 4)].

(** An indicator set that knows b.com. *)
Definition knows_b : Indicators :=
  {| check_domain := fun u => domain_eqb (URL_domain u) (Some "b.com") |}.

Definition three_visits : list (VisitRecord Timestamp) :=
  [origin_a; redirect_b; redirect_d].

(** The methods on this store. *)
Definition inspect (r : VisitRecord Timestamp) (rs : list (VisitRecord Timestamp)) :=
  inspect_result convert_mactime_to_unix URL_domain r (self_of rs None).

Definition inspect_pair (origin redirect : VisitRecord Timestamp)
    (rs : list (VisitRecord Timestamp)) :=
  inspect_redirect convert_mactime_to_unix URL_domain
    origin (URL_domain (url origin)) redirect (self_of rs None).

Definition check (rs : list (VisitRecord Timestamp)) (ind : option Indicators) :=
  check_indicators convert_mactime_to_unix URL_domain (self_of rs ind).

End Store.

(** ** What chain analysis is to log *)

Section Reports.

Variable Timestamp : Type.
Variable convert_mactime_to_unix : Timestamp -> option datetime.
Variable URL_domain : string -> option string.

(** The diagnostics due for a pair: none unless the pair is a redirect
    to another domain; else the informational one, and the elevated one
    after it when the seconds of the elapsed time are zero. *)
Definition report (origin redirect : VisitRecord Timestamp)
    : list LogEvent :=
  if cross_domain URL_domain origin redirect then
    LogInfo (URL_domain (url origin)) (URL_domain (url redirect))
    :: match elapsed convert_mactime_to_unix origin redirect with
       | Some d =>
           let td := timedelta.of_microseconds d in
           if timedelta.seconds td =? 0
           then [LogWarning (timedelta.microseconds td / 1000)]
           else []
       | None => []
       end
  else [].

(** All pairs of the sequence, origins first, in the order of the
    sequence. *)
Definition reports (rs : list (VisitRecord Timestamp)) : list LogEvent :=
  flat_map (fun origin => flat_map (report origin) rs) rs.

(** The times of every pair to report convert. *)
Definition convertible (rs : list (VisitRecord Timestamp)) : Prop :=
  forall origin redirect,
    In origin rs -> In redirect rs ->
    cross_domain URL_domain origin redirect = true ->
    elapsed convert_mactime_to_unix origin redirect <> None.

End Reports.

Arguments report {Timestamp}.
Arguments reports {Timestamp}.
Arguments convertible {Timestamp}.

(** The diagnostics of one pair: the informational one, alone or followed
    by the elevated one. *)
Definition is_block (b : list LogEvent) : Prop :=
  match b with
  | [LogInfo _ _] => True
  | [LogInfo _ _; LogWarning _] => True
  | _ => False
  end.

(** The milliseconds of an elevated diagnostic are below a second. *)
Definition ms_in_range {Timestamp} (e : Event Timestamp) : Prop :=
  match e with
  | Logged (LogWarning ms) => 0 <= ms <= 999
  | _ => True
  end.

(** ** [serialize] *)

(** [str(n)] for an integer: its decimal digits, after [-] when it is
    negative. *)
Definition str_int (n : Z) : string :=
  DecimalString.NilEmpty.string_of_int (Z.to_int n).

(** The dictionary [serialize] returns, a field for each key. *)
Module Entry.

Record t : Type := mk {
  timestamp : string;
  module : string;
  event : string;
  data : string
}.

End Entry.

Section Serialize.

Variable Timestamp : Type.

(** [self.__class__.__name__]. *)
Definition class_name : string := "SafariHistory".

Definition serialize (record : VisitRecord Timestamp) : Entry.t :=
  {| Entry.timestamp := isodate record;
     Entry.module := class_name;
     Entry.event := "safari_history";
     Entry.data :=
       ("Safari visit to " ++ url record
        ++ " (ID: " ++ str_int (id record)
        ++ ", Visit ID: " ++ str_int (visit_id record) ++ ")")%string |}.

End Serialize.

Arguments serialize {Timestamp}.

(** ** [run], from the rows of the query on *)

Section Loader.

Variable Timestamp : Type.
Variable convert_mactime_to_unix : Timestamp -> option datetime.

(** [mvt.common.utils.convert_timestamp_to_iso]: the text of a
    [datetime]. *)
Variable convert_timestamp_to_iso : option datetime -> string.

(** A row of the cursor: [history_items.id], [history_items.url],
    [history_visits.id], [visit_time], [redirect_source],
    [redirect_destination]. *)
Definition Row : Type :=
  (Z * string * Z * Timestamp * option Z * option Z)%type.

(** The dictionary appended to [items] for a row. *)
Definition item_of (item : Row) : VisitRecord Timestamp :=
  let '(i0, i1, i2, i3, i4, i5) := item in
  {| id := i0;
     url := i1;
     visit_id := i2;
     timestamp := i3;
     isodate := convert_timestamp_to_iso (convert_mactime_to_unix i3);
     redirect_source := i4;
     redirect_destination := i5 |}.

(** Columns of a row: [history_items.url], [history_visits.id] and
    [history_visits.visit_time]. *)
Definition row_url (item : Row) : string :=
  let '(_, i1, _, _, _, _) := item in i1.

Definition row_visit_id (item : Row) : Z :=
  let '(_, _, i2, _, _, _) := item in i2.

Definition row_visit_time (item : Row) : Timestamp :=
  let '(_, _, _, i3, _, _) := item in i3.

(** [items = []], then [items.append(...)] for each row of the cursor. *)
Definition items_of (cur : list Row) : list (VisitRecord Timestamp) :=
  fold_left (fun items item => (items ++ [item_of item])%list) cur [].

(** The two calls [run] makes on [self.log]. *)
Inductive RunLog : Type :=
| FoundDatabase (file_path : string)
| ExtractedTotal (n : Z).

(** [self.results = items]. *)
Definition set_results (items : list (VisitRecord Timestamp))
    : M (Self Timestamp) RunLog unit :=
  fun s => mkOutcome
             {| results := items;
                detected := detected s;
                indicators := indicators s |}
             [] (Returned tt).

(** [run], given what the store gave: the path [_find_ios_database]
    found and the rows the query yields, in the order it yields them. *)
Definition run (file_path : string) (cur : list Row)
    : M (Self Timestamp) RunLog unit :=
  act (FoundDatabase file_path) (fun s => s) ;;
  let items := items_of cur in
  act (ExtractedTotal (Z.of_nat (List.length items))) (fun s => s) ;;
  set_results items.

End Loader.

Arguments Row : clear implicits.
Arguments row_url {Timestamp}.
Arguments row_visit_id {Timestamp}.
Arguments row_visit_time {Timestamp}.
Arguments item_of {Timestamp}.
Arguments items_of {Timestamp}.
Arguments set_results {Timestamp}.
Arguments run {Timestamp}.

(** ** More visits on the concrete store *)

Module Samples.

(** A stand-in for [mvt.common.utils.convert_timestamp_to_iso], which is
    not part of the module: the decimal text of the microseconds, where
    the real one writes a calendar date. It only serves to run [run] on
    concrete rows; the properties hold of every conversion. *)
Definition convert_timestamp_to_iso (t : option datetime) : string :=
  match t with
  | Some us => str_int us
  | None => "None"
  end.

(** A conversion that gives [None] for the visit time 0 and converts the
    others as the store does. *)
Definition partial_convert (t : Store.Timestamp) : option datetime :=
  if t =? 0 then None else Store.convert_mactime_to_unix t.

(** An HTTP visit redirected to visit 2, at the visit time 0. *)
Definition origin_unset : VisitRecord Store.Timestamp :=
  Store.visit 1 "http://a.com" 0 (Some 2).

Definition unset_then_match : list (VisitRecord Store.Timestamp) :=
  [origin_unset; Store.redirect_b].

(** The rows of the visits of [Store.three_visits]. *)
Definition three_rows : list (Row Store.Timestamp) :=
  [(1, "http://a.com", 1, Store.T0, None, Some 2);
   (2, "https://b.com", 2, Store.T0 + 300000, None, None);
   (4, "https://d.com", 4, Store.T0 + 400000, None, None)].

Definition load (cur : list (Row Store.Timestamp))
    (s : Self Store.Timestamp) :=
  run Store.convert_mactime_to_unix convert_timestamp_to_iso
      "History.db" cur s.

End Samples.

(** * Properties *)

Local Open Scope list_scope.

(** ** Facts on the effects *)

Section EffectFacts.

Context {St Ev : Type}.

Lemma outcome_eta {A} (o : Outcome St Ev A) :
  mkOutcome (final o) (trace o) (completion o) = o.
Proof. destruct o; reflexivity. Qed.

Lemma bind_ret_l {A B} (a : A) (k : A -> M St Ev B) (s : St) :
  bind (ret a) k s = k a s.
Proof. unfold bind, ret; simpl. apply outcome_eta. Qed.

Lemma bind_returned {A B} (m : M St Ev A) (k : A -> M St Ev B) s a :
  completion (m s) = Returned a ->
  bind m k s =
  mkOutcome (final (k a (final (m s))))
            (trace (m s) ++ trace (k a (final (m s))))
            (completion (k a (final (m s)))).
Proof. intros H. unfold bind. rewrite H. reflexivity. Qed.

Lemma bind_raised {A B} (m : M St Ev A) (k : A -> M St Ev B) s e :
  completion (m s) = Raised e ->
  bind m k s = mkOutcome (final (m s)) (trace (m s)) (Raised e).
Proof. intros H. unfold bind. rewrite H. reflexivity. Qed.

Lemma preserving_bind {A B} (m : M St Ev A) (k : A -> M St Ev B) :
  preserving m -> (forall a, preserving (k a)) -> preserving (bind m k).
Proof.
  intros Hm Hk s. unfold bind.
  destruct (completion (m s)) as [a|e] eqn:E; simpl.
  - rewrite Hk. apply Hm.
  - apply Hm.
Qed.

Lemma preserving_for_each {A} (body : A -> M St Ev unit) xs :
  (forall x, preserving (body x)) -> preserving (for_each body xs).
Proof.
  intros Hb. induction xs as [|x xs IH]; simpl.
  - intros s; reflexivity.
  - apply preserving_bind; auto.
Qed.

Lemma trace_bind_Forall {A B} (P : Ev -> Prop)
    (m : M St Ev A) (k : A -> M St Ev B) s :
  Forall P (trace (m s)) ->
  (forall a s', Forall P (trace (k a s'))) ->
  Forall P (trace (bind m k s)).
Proof.
  intros Hm Hk. unfold bind.
  destruct (completion (m s)); simpl; auto.
  apply Forall_app; split; auto.
Qed.

Lemma trace_for_each_Forall {A} (P : Ev -> Prop)
    (body : A -> M St Ev unit) xs :
  (forall x s, Forall P (trace (body x s))) ->
  forall s, Forall P (trace (for_each body xs s)).
Proof.
  intros Hb. induction xs as [|x xs IH]; intros s; simpl.
  - constructor.
  - apply trace_bind_Forall; auto.
Qed.

Lemma bind_ext {A B} (m : M St Ev A) (k k' : A -> M St Ev B) s :
  (forall a s', k a s' = k' a s') -> bind m k s = bind m k' s.
Proof.
  intros H. unfold bind.
  destruct (completion (m s)) as [a|e]; [rewrite H|]; reflexivity.
Qed.

Lemma bind_assoc {A B C} (m : M St Ev A) (k : A -> M St Ev B)
    (h : B -> M St Ev C) s :
  bind (bind m k) h s = bind m (fun a => bind (k a) h) s.
Proof.
  unfold bind.
  destruct (completion (m s)) as [a|e]; simpl; [|reflexivity].
  destruct (completion (k a (final (m s)))); simpl; [|reflexivity].
  rewrite app_assoc. reflexivity.
Qed.

Lemma for_each_app {A} (body : A -> M St Ev unit) xs ys s :
  for_each body (xs ++ ys) s =
  bind (for_each body xs) (fun _ => for_each body ys) s.
Proof.
  revert s. induction xs as [|x xs IH]; intros s; simpl.
  - symmetry. apply (bind_ret_l tt (fun _ => for_each body ys)).
  - rewrite bind_assoc. apply bind_ext. intros _ s'. apply IH.
Qed.

(** A loop over bodies that return and leave the state alone returns,
    and its actions are those of the bodies, in order. *)
Lemma for_each_returned {A} (body : A -> M St Ev unit) xs s :
  Forall (fun x => final (body x s) = s
                   /\ completion (body x s) = Returned tt) xs ->
  for_each body xs s =
  mkOutcome s (flat_map (fun x => trace (body x s)) xs) (Returned tt).
Proof.
  induction 1 as [|x xs [Hf Hc] _ IH]; simpl.
  - reflexivity.
  - rewrite (bind_returned _ _ _ _ Hc), Hf, IH. reflexivity.
Qed.

(** Conversely a loop that returns has run every body to its end. *)
Lemma for_each_returned_inv {A} (body : A -> M St Ev unit) xs s :
  (forall x, preserving (body x)) ->
  completion (for_each body xs s) = Returned tt ->
  Forall (fun x => completion (body x s) = Returned tt) xs.
Proof.
  intros Hp. induction xs as [|x xs IH]; simpl; intros H.
  - constructor.
  - unfold bind in H.
    destruct (completion (body x s)) as [[]|e] eqn:E; simpl in H.
    + rewrite Hp in H. constructor; auto.
    + discriminate.
Qed.

(** A body that does nothing can be left out of the loop. *)
Lemma for_each_skip {A} (body : A -> M St Ev unit) pre x post s :
  (forall y, preserving (body y)) ->
  body x s = ret tt s ->
  for_each body (pre ++ x :: post) s = for_each body (pre ++ post) s.
Proof.
  intros Hp Hx. rewrite !for_each_app. unfold bind.
  destruct (completion (for_each body pre s)); [|reflexivity].
  rewrite (preserving_for_each body pre Hp s).
  simpl. unfold bind. rewrite Hx. reflexivity.
Qed.

(** A loop whose bodies all do nothing does nothing. *)
Lemma for_each_nothing {A} (body : A -> M St Ev unit) xs s :
  Forall (fun x => body x s = ret tt s) xs ->
  for_each body xs s = ret tt s.
Proof.
  induction 1 as [|x xs Hx _ IH]; simpl; [reflexivity|].
  unfold bind. rewrite Hx. simpl. rewrite IH. reflexivity.
Qed.

Lemma bind_get {B} (k : St -> M St Ev B) s :
  bind get k s = k s s.
Proof. unfold bind, get; simpl. apply outcome_eta. Qed.

End EffectFacts.

(** ** The test on the scheme *)

Example plain_http_any_case :
  is_plain_http "http://a.com" = true
  /\ is_plain_http "HTTP://A.COM/x" = true
  /\ is_plain_http "hTtP://a.com" = true
  /\ is_plain_http "https://a.com" = false
  /\ is_plain_http "ftp://a.com" = false
  /\ is_plain_http "a.com" = false.
Proof. repeat split. Qed.

(** An HTTPS URL, in any case, is not a plain HTTP one. *)
Lemma https_is_not_plain_http (u : string) :
  Str.startswith (Str.lower u) "https://" = true ->
  is_plain_http u = false.
Proof.
  unfold is_plain_http, Str.startswith.
  generalize (Str.lower u) as l. intros l H.
  destruct (String.prefix "http://" l) eqn:E; [|reflexivity].
  apply String.prefix_correct in H, E.
  destruct l as [|c1 [|c2 [|c3 [|c4 [|c5 l]]]]]; simpl in H, E;
    try discriminate H.
  congruence.
Qed.

(** ** Chain analysis *)

Section ChainAnalysis.

Variable Timestamp : Type.
Variable convert_mactime_to_unix : Timestamp -> option datetime.
Variable URL_domain : string -> option string.

Local Abbreviation VisitRecord := (VisitRecord Timestamp).
Local Abbreviation Self := (Self Timestamp).
Local Abbreviation inspect_redirect :=
  (inspect_redirect convert_mactime_to_unix URL_domain).
Local Abbreviation inspect_result :=
  (inspect_result convert_mactime_to_unix URL_domain).
Local Abbreviation _find_injections :=
  (_find_injections convert_mactime_to_unix URL_domain).
Local Abbreviation check_indicators :=
  (check_indicators convert_mactime_to_unix URL_domain).
Local Abbreviation cross_domain := (cross_domain URL_domain).
Local Abbreviation elapsed := (elapsed convert_mactime_to_unix).

Implicit Types (s : Self) (result origin redirect : VisitRecord).

Ltac run_pair :=
  unfold inspect_redirect, log_info, log_warning, datetime_sub,
    bind, act, ret, raise; simpl.

(** *** The inner loop body *)

Lemma inspect_redirect_preserving result od redirect :
  preserving (inspect_redirect result od redirect).
Proof.
  intros s. run_pair.
  destruct (py_ne _ _); simpl; auto.
  destruct (domain_eqb _ _); simpl; auto.
  destruct (convert_mactime_to_unix (timestamp redirect)); simpl; auto.
  destruct (convert_mactime_to_unix (timestamp result)); simpl; auto.
  destruct (_ =? 0); reflexivity.
Qed.

Lemma inspect_redirect_logs result od redirect s :
  Forall is_logged (trace (inspect_redirect result od redirect s)).
Proof.
  run_pair.
  destruct (py_ne _ _); simpl; auto.
  destruct (domain_eqb _ _); simpl; auto.
  destruct (convert_mactime_to_unix (timestamp redirect)); simpl;
    [|repeat constructor].
  destruct (convert_mactime_to_unix (timestamp result)); simpl;
    [|repeat constructor].
  destruct (_ =? 0); simpl; repeat constructor.
Qed.

(** What the body does is the same in every state. *)
Lemma inspect_redirect_stateless result od redirect s s' :
  trace (inspect_redirect result od redirect s) =
  trace (inspect_redirect result od redirect s')
  /\ completion (inspect_redirect result od redirect s) =
     completion (inspect_redirect result od redirect s').
Proof.
  run_pair.
  destruct (py_ne _ _); simpl; auto.
  destruct (domain_eqb _ _); simpl; auto.
  destruct (convert_mactime_to_unix (timestamp redirect)); simpl; auto.
  destruct (convert_mactime_to_unix (timestamp result)); simpl; auto.
  destruct (_ =? 0); simpl; auto.
Qed.

Lemma inspect_redirect_other result od redirect s :
  redirects_to result redirect = false ->
  inspect_redirect result od redirect s = ret tt s.
Proof.
  unfold redirects_to. intros H. apply negb_false_iff in H.
  unfold inspect_redirect. rewrite H. reflexivity.
Qed.

Lemma domain_eqb_eq (a b : option string) :
  domain_eqb a b = true <-> a = b.
Proof.
  destruct a as [x|], b as [y|]; simpl; split; intros H;
    try discriminate; auto.
  - apply String.eqb_eq in H. congruence.
  - injection H as ->. apply String.eqb_refl.
Qed.

Lemma inspect_redirect_same_domain result od redirect s :
  od = URL_domain (url redirect) ->
  inspect_redirect result od redirect s = ret tt s.
Proof.
  intros H. apply domain_eqb_eq in H.
  unfold inspect_redirect.
  destruct (py_ne _ _); [reflexivity|]. rewrite H. reflexivity.
Qed.

(** The reported pair: the informational diagnostic, then the
    subtraction, then the test on [elapsed_time.seconds]. *)
Lemma inspect_redirect_reported origin redirect s :
  redirects_to origin redirect = true ->
  URL_domain (url origin) <> URL_domain (url redirect) ->
  inspect_redirect origin (URL_domain (url origin)) redirect s =
  let info := Logged (LogInfo (URL_domain (url origin))
                              (URL_domain (url redirect))) in
  match elapsed origin redirect with
  | None => mkOutcome s [info] (Raised TypeError)
  | Some d =>
      let td := timedelta.of_microseconds d in
      mkOutcome s
        (info :: if timedelta.seconds td =? 0
                 then [Logged (LogWarning (timedelta.microseconds td / 1000))]
                 else [])
        (Returned tt)
  end.
Proof.
  unfold redirects_to. intros H Hd. apply negb_true_iff in H.
  assert (Hd' : domain_eqb (URL_domain (url origin))
                           (URL_domain (url redirect)) = false).
  { destruct (domain_eqb _ _) eqn:E; [|reflexivity].
    apply domain_eqb_eq in E. contradiction. }
  run_pair. unfold elapsed. rewrite H, Hd'. simpl.
  destruct (convert_mactime_to_unix (timestamp redirect)); simpl; auto.
  destruct (convert_mactime_to_unix (timestamp origin)); simpl; auto.
  destruct (_ =? 0); reflexivity.
Qed.

(** A scan that does not meet the record redirected to does nothing. *)
Lemma scan_without_target origin od rs s :
  Forall (fun r => redirects_to origin r = false) rs ->
  for_each (inspect_redirect origin od) rs s = ret tt s.
Proof.
  intros H. apply for_each_nothing.
  eapply Forall_impl; [|exact H]. intros r Hr.
  apply inspect_redirect_other. exact Hr.
Qed.

(** *** The outer loop body and the loop *)

Lemma inspect_result_skipped result s :
  is_plain_http (url result) = false
  \/ truthy (redirect_destination result) = false ->
  inspect_result result s = ret tt s.
Proof.
  unfold inspect_result. intros [H|H].
  - rewrite H. reflexivity.
  - rewrite H. destruct (is_plain_http _); reflexivity.
Qed.

Lemma inspect_result_scans result s :
  is_plain_http (url result) = true ->
  truthy (redirect_destination result) = true ->
  inspect_result result s =
  for_each (inspect_redirect result (URL_domain (url result))) (results s) s.
Proof.
  unfold inspect_result. intros -> ->. simpl.
  exact (bind_get
           (fun self =>
              for_each (inspect_redirect result (URL_domain (url result)))
                       (results self)) s).
Qed.

Lemma inspect_result_cases result s :
  inspect_result result s = ret tt s
  \/ inspect_result result s =
     for_each (inspect_redirect result (URL_domain (url result)))
              (results s) s.
Proof.
  destruct (is_plain_http (url result)) eqn:Eh.
  - destruct (truthy (redirect_destination result)) eqn:Et.
    + right. apply inspect_result_scans; assumption.
    + left. apply inspect_result_skipped. auto.
  - left. apply inspect_result_skipped. auto.
Qed.

Lemma inspect_result_preserving result : preserving (inspect_result result).
Proof.
  intros s. destruct (inspect_result_cases result s) as [-> | ->].
  - reflexivity.
  - apply preserving_for_each. intros x. apply inspect_redirect_preserving.
Qed.

Lemma inspect_result_logs result s :
  Forall is_logged (trace (inspect_result result s)).
Proof.
  destruct (inspect_result_cases result s) as [-> | ->].
  - constructor.
  - apply trace_for_each_Forall. intros x s'. apply inspect_redirect_logs.
Qed.

Lemma find_injections_loop s :
  _find_injections s = for_each inspect_result (results s) s.
Proof.
  unfold _find_injections.
  exact (bind_get (fun self => for_each inspect_result (results self)) s).
Qed.

Lemma find_injections_preserving : preserving _find_injections.
Proof.
  intros s. rewrite find_injections_loop.
  apply preserving_for_each. intros x. apply inspect_result_preserving.
Qed.

Lemma find_injections_logs s :
  Forall is_logged (trace (_find_injections s)).
Proof.
  rewrite find_injections_loop.
  apply trace_for_each_Forall. intros x s'. apply inspect_result_logs.
Qed.

Lemma logged_not_appended (tr : list (Event Timestamp)) :
  Forall is_logged tr -> appended tr = [] /\ map Logged (diagnostics tr) = tr.
Proof.
  induction 1 as [|e tr He _ [IHa IHd]]; simpl; auto.
  destruct e; simpl in *; [|contradiction].
  rewrite IHd. auto.
Qed.

(** *** Records chain analysis passes over *)

(** C2. Chain analysis does nothing for a record whose URL does not start
    with http://, whatever the case of its letters, or that has no
    redirect destination: no diagnostic, no error, no change. *)
Theorem non_http_or_no_redirect_is_skipped result s :
  is_plain_http (url result) = false \/ redirect_destination result = None ->
  inspect_result result s = ret tt s.
Proof.
  intros [H|H]; apply inspect_result_skipped; [left|right]; trivial.
  rewrite H. reflexivity.
Qed.

(** C10. A record whose redirect destination is the integer 0 is passed
    over exactly as a record with no redirect destination, whatever the
    sequence holds. *)
Theorem zero_destination_is_no_destination result s :
  redirect_destination result = Some 0 ->
  inspect_result result s = ret tt s
  /\ inspect_result result s =
     inspect_result (with_destination result None) s.
Proof.
  intros H.
  assert (E : inspect_result result s = ret tt s).
  { apply inspect_result_skipped. right. rewrite H. reflexivity. }
  split; [exact E|]. rewrite E. symmetry.
  apply inspect_result_skipped. right. reflexivity.
Qed.

(** C3. For an origin and the record of the sequence it redirects to,
    when both URLs have the same domain the pair yields no diagnostic;
    and the origin yields none at all when that record is the only one
    with the visit id redirected to. *)
Theorem same_domain_pair_is_silent origin redirect s :
  In redirect (results s) ->
  redirects_to origin redirect = true ->
  URL_domain (url origin) = URL_domain (url redirect) ->
  inspect_redirect origin (URL_domain (url origin)) redirect s = ret tt s
  /\ ((forall r, In r (results s) -> redirects_to origin r = true ->
                 r = redirect) ->
      inspect_result origin s = ret tt s).
Proof.
  intros _ _ H. split.
  - apply inspect_redirect_same_domain. exact H.
  - intros Hu.
    destruct (inspect_result_cases origin s) as [E|E]; [exact E|].
    rewrite E. apply for_each_nothing. apply Forall_forall. intros r Hr.
    destruct (redirects_to origin r) eqn:Et.
    + rewrite (Hu r Hr Et). apply inspect_redirect_same_domain. exact H.
    + apply inspect_redirect_other. exact Et.
Qed.

(** C4. An origin whose redirect destination is the visit id of no record
    of the sequence yields no diagnostic and no error, and the run is the
    run over the other records. *)
Theorem dangling_reference_is_skipped origin s :
  dangling (results s) origin ->
  inspect_result origin s = ret tt s
  /\ forall pre post,
       results s = pre ++ origin :: post ->
       _find_injections s = for_each inspect_result (pre ++ post) s.
Proof.
  intros Hd.
  assert (E : inspect_result origin s = ret tt s).
  { destruct (inspect_result_cases origin s) as [E|E]; [exact E|].
    rewrite E. apply scan_without_target. exact Hd. }
  split; [exact E|]. intros pre post Hs.
  rewrite find_injections_loop, Hs.
  apply for_each_skip; [apply inspect_result_preserving | exact E].
Qed.

(** C8. Chain analysis leaves [self] as it found it, the sequence of
    results and the list of detections included; all it does is log. *)
Theorem find_injections_only_logs s :
  final (_find_injections s) = s
  /\ Forall is_logged (trace (_find_injections s))
  /\ appended (trace (_find_injections s)) = [].
Proof.
  split; [apply find_injections_preserving|].
  split; [apply find_injections_logs|].
  apply logged_not_appended, find_injections_logs.
Qed.

(** *** The test on the elapsed time *)

(** [elapsed_time.seconds] leaves whole days out. *)
Lemma seconds_zero_iff d :
  (timedelta.seconds (timedelta.of_microseconds d) =? 0) =
  (d mod (86400 * 1000000) <? 1000000).
Proof.
  simpl timedelta.seconds.
  pose proof (Z.rem_mul_r d 1000000 86400) as Hr.
  pose proof (Z.mod_pos_bound d 1000000) as H1.
  pose proof (Z.mod_pos_bound (d / 1000000) 86400) as H2.
  replace (86400 * 1000000) with (1000000 * 86400) by reflexivity.
  rewrite Hr by lia.
  destruct (Z.eqb_spec ((d / 1000000) mod 86400) 0) as [E|E];
    destruct (Z.ltb_spec (d mod 1000000 + 1000000 * ((d / 1000000) mod 86400))
                         1000000); try reflexivity; lia.
Qed.

Lemma seconds_zero_within_a_day d :
  0 <= d < 86400 * 1000000 ->
  (timedelta.seconds (timedelta.of_microseconds d) =? 0) = (d <? 1000000).
Proof.
  intros H. rewrite seconds_zero_iff, Z.mod_small; [reflexivity | lia].
Qed.

(** A reported pair whose times convert: the informational diagnostic,
    then the elevated one exactly when the elapsed time, whole days left
    out, is under one second. *)
Lemma reported_pair_elevated_iff origin redirect s d :
  cross_domain origin redirect = true ->
  elapsed origin redirect = Some d ->
  inspect_redirect origin (URL_domain (url origin)) redirect s =
  mkOutcome s
    (Logged (LogInfo (URL_domain (url origin)) (URL_domain (url redirect)))
     :: if d mod (86400 * 1000000) <? 1000000
        then [Logged (LogWarning (d mod 1000000 / 1000))]
        else [])
    (Returned tt).
Proof.
  unfold cross_domain. intros Hx He.
  apply andb_prop in Hx as [Hx Hdom]. apply andb_prop in Hx as [_ Hto].
  apply negb_true_iff in Hdom.
  rewrite inspect_redirect_reported; [|exact Hto|].
  - rewrite He. cbv zeta. rewrite seconds_zero_iff. reflexivity.
  - intros E. apply domain_eqb_eq in E. congruence.
Qed.

(** A reported pair no more than a day apart: the elevated diagnostic is
    logged exactly when the elapsed time is under one second, with the
    whole milliseconds of the elapsed time. *)
Lemma reported_pair_within_a_day origin redirect s d :
  cross_domain origin redirect = true ->
  elapsed origin redirect = Some d ->
  0 <= d < 86400 * 1000000 ->
  inspect_redirect origin (URL_domain (url origin)) redirect s =
  mkOutcome s
    (Logged (LogInfo (URL_domain (url origin)) (URL_domain (url redirect)))
     :: if d <? 1000000 then [Logged (LogWarning (d / 1000))] else [])
    (Returned tt).
Proof.
  intros Hx He Hd.
  rewrite (reported_pair_elevated_iff origin redirect s d Hx He).
  rewrite (Z.mod_small d (86400 * 1000000)) by lia.
  destruct (Z.ltb_spec d 1000000); [|reflexivity].
  rewrite Z.mod_small by lia. reflexivity.
Qed.

(** A reported pair with a time that does not convert: the informational
    diagnostic, then the subtraction raises. *)
Lemma reported_pair_unconverted origin redirect s :
  cross_domain origin redirect = true ->
  elapsed origin redirect = None ->
  inspect_redirect origin (URL_domain (url origin)) redirect s =
  mkOutcome s
    [Logged (LogInfo (URL_domain (url origin)) (URL_domain (url redirect)))]
    (Raised TypeError).
Proof.
  unfold cross_domain. intros Hx He.
  apply andb_prop in Hx as [Hx Hdom]. apply andb_prop in Hx as [_ Hto].
  apply negb_true_iff in Hdom.
  rewrite inspect_redirect_reported; [|exact Hto|].
  - rewrite He. reflexivity.
  - intros E. apply domain_eqb_eq in E. congruence.
Qed.

(** *** Chain analysis returns when the times convert *)

Lemma inspect_redirect_returns result od redirect s :
  convert_mactime_to_unix (timestamp redirect) <> None ->
  convert_mactime_to_unix (timestamp result) <> None ->
  completion (inspect_redirect result od redirect s) = Returned tt.
Proof.
  intros Hr Ho. run_pair.
  destruct (py_ne _ _); simpl; auto.
  destruct (domain_eqb _ _); simpl; auto.
  destruct (convert_mactime_to_unix (timestamp redirect)); [|contradiction].
  destruct (convert_mactime_to_unix (timestamp result)); [|contradiction].
  simpl. destruct (_ =? 0); reflexivity.
Qed.

Lemma find_injections_returns s :
  Forall (fun r => convert_mactime_to_unix (timestamp r) <> None)
         (results s) ->
  completion (_find_injections s) = Returned tt.
Proof.
  intros Hall. rewrite find_injections_loop.
  rewrite for_each_returned; [reflexivity|].
  eapply Forall_impl; [|exact Hall]. intros o Ho. simpl in Ho.
  split; [apply inspect_result_preserving|].
  destruct (inspect_result_cases o s) as [-> | ->]; [reflexivity|].
  rewrite for_each_returned; [reflexivity|].
  eapply Forall_impl; [|exact Hall]. intros r Hr. simpl in Hr.
  split; [apply inspect_redirect_preserving|].
  apply inspect_redirect_returns; assumption.
Qed.

(** *** The order of the sequence *)

Lemma flat_map_pointwise_Permutation {A B} (f g : A -> list B) l :
  Forall (fun x => Permutation (f x) (g x)) l ->
  Permutation (flat_map f l) (flat_map g l).
Proof.
  induction 1 as [|x l Hx _ IH]; simpl.
  - constructor.
  - apply Permutation_app; assumption.
Qed.

(** The scan for the record redirected to, over a permuted sequence. *)
Lemma scan_permuted origin od rs rs' s s' :
  Permutation rs rs' ->
  completion (for_each (inspect_redirect origin od) rs s) = Returned tt ->
  completion (for_each (inspect_redirect origin od) rs' s') = Returned tt
  /\ Permutation (trace (for_each (inspect_redirect origin od) rs s))
                 (trace (for_each (inspect_redirect origin od) rs' s')).
Proof.
  intros Hp Hc.
  apply for_each_returned_inv in Hc;
    [|intros x; apply inspect_redirect_preserving].
  assert (H' : Forall (fun x =>
             completion (inspect_redirect origin od x s') = Returned tt) rs').
  { rewrite <- Hp. eapply Forall_impl; [|exact Hc]. intros x Hx. simpl in Hx.
    rewrite <- Hx. symmetry. apply inspect_redirect_stateless. }
  rewrite (for_each_returned _ rs s), (for_each_returned _ rs' s').
  - simpl. split; [reflexivity|].
    rewrite (flat_map_ext _ (fun x => trace (inspect_redirect origin od x s'))).
    + apply Permutation_flat_map. exact Hp.
    + intros x. apply inspect_redirect_stateless.
  - eapply Forall_impl; [|exact H']. intros x Hx. simpl in Hx. split; auto.
    apply inspect_redirect_preserving.
  - eapply Forall_impl; [|exact Hc]. intros x Hx. simpl in Hx. split; auto.
    apply inspect_redirect_preserving.
Qed.

Lemma inspect_result_permuted origin s rs' :
  Permutation (results s) rs' ->
  completion (inspect_result origin s) = Returned tt ->
  completion (inspect_result origin (with_results s rs')) = Returned tt
  /\ Permutation (trace (inspect_result origin s))
                 (trace (inspect_result origin (with_results s rs'))).
Proof.
  intros Hp.
  destruct (is_plain_http (url origin)) eqn:Eh;
    [destruct (truthy (redirect_destination origin)) eqn:Et|].
  - rewrite !inspect_result_scans by assumption.
    apply scan_permuted. exact Hp.
  - rewrite !inspect_result_skipped by auto. simpl. auto.
  - rewrite !inspect_result_skipped by auto. simpl. auto.
Qed.

(** Chain analysis of a permuted sequence returns when that of the
    sequence does, with the same actions in a permuted order. *)
Lemma find_injections_permuted s rs' :
  Permutation (results s) rs' ->
  completion (_find_injections s) = Returned tt ->
  completion (_find_injections (with_results s rs')) = Returned tt
  /\ Permutation (trace (_find_injections s))
                 (trace (_find_injections (with_results s rs'))).
Proof.
  intros Hp Hc. rewrite !find_injections_loop in *.
  change (results (with_results s rs')) with rs'.
  set (s' := with_results s rs').
  apply for_each_returned_inv in Hc;
    [|intros x; apply inspect_result_preserving].
  assert (Hboth : Forall (fun o =>
             completion (inspect_result o s') = Returned tt
             /\ Permutation (trace (inspect_result o s))
                            (trace (inspect_result o s'))) (results s)).
  { eapply Forall_impl; [|exact Hc]. intros o Ho. simpl in Ho.
    apply inspect_result_permuted; assumption. }
  rewrite (for_each_returned _ (results s) s), (for_each_returned _ rs' s').
  - simpl. split; [reflexivity|].
    transitivity (flat_map (fun o => trace (inspect_result o s')) (results s)).
    + apply flat_map_pointwise_Permutation.
      eapply Forall_impl; [|exact Hboth]. intros o Ho. apply Ho.
    + apply Permutation_flat_map. exact Hp.
  - rewrite <- Hp. eapply Forall_impl; [|exact Hboth]. intros o [Ho _].
    split; [apply inspect_result_preserving | exact Ho].
  - eapply Forall_impl; [|exact Hc]. intros o Ho. simpl in Ho.
    split; [apply inspect_result_preserving | exact Ho].
Qed.

Variable ts_le : Timestamp -> Timestamp -> Prop.

Local Abbreviation ascending := (ascending ts_le).

(** Two ascending arrangements of records with distinct visit times are
    the same arrangement. *)
Lemma ascending_arrangement_unique (rs rs' : list VisitRecord) :
  (forall a b, ts_le a b -> ts_le b a -> a = b) ->
  NoDup (map timestamp rs) ->
  Permutation rs rs' -> ascending rs -> ascending rs' -> rs = rs'.
Proof.
  intros Hanti. revert rs'.
  induction rs as [|x xs IH]; intros rs' Hn Hp Ha Ha'.
  - apply Permutation_nil in Hp. congruence.
  - destruct rs' as [|y ys].
    + symmetry in Hp. apply Permutation_nil in Hp. discriminate.
    + apply StronglySorted_inv in Ha as [Hxs Hx].
      apply StronglySorted_inv in Ha' as [Hys Hy].
      inversion Hn as [|? ? Hnotin Hn']; subst.
      assert (E : x = y).
      { assert (Hin : In x (y :: ys))
          by (eapply Permutation_in; [exact Hp | left; reflexivity]).
        destruct Hin as [E|Hin]; [congruence|].
        assert (Hin' : In y (x :: xs))
          by (eapply Permutation_in;
              [symmetry; exact Hp | left; reflexivity]).
        destruct Hin' as [E|Hin']; [congruence|].
        rewrite Forall_forall in Hx, Hy.
        specialize (Hx _ Hin'). specialize (Hy _ Hin).
        exfalso. apply Hnotin.
        rewrite (Hanti _ _ Hx Hy). apply in_map. exact Hin'. }
      subst y. f_equal.
      apply IH; auto. eapply Permutation_cons_inv. exact Hp.
Qed.

(** C9, as the code has it. Chain analysis of an ascending sequence that
    returns, run again on a permuted copy that is ascending too, returns
    and logs the same diagnostics, up to the order they are logged in;
    in the same order when no two visit times are equal. *)
Theorem resorted_copy_same_diagnostics s rs' :
  Permutation (results s) rs' ->
  ascending (results s) ->
  ascending rs' ->
  completion (_find_injections s) = Returned tt ->
  completion (_find_injections (with_results s rs')) = Returned tt
  /\ Permutation
       (diagnostics (trace (_find_injections s)))
       (diagnostics (trace (_find_injections (with_results s rs'))))
  /\ ((forall a b, ts_le a b -> ts_le b a -> a = b) ->
      NoDup (map timestamp (results s)) ->
      diagnostics (trace (_find_injections s)) =
      diagnostics (trace (_find_injections (with_results s rs')))).
Proof.
  intros Hp Ha Ha' Hc.
  destruct (find_injections_permuted s rs' Hp Hc) as [Hc' Ht].
  split; [exact Hc'|]. split.
  - unfold diagnostics. apply Permutation_flat_map. exact Ht.
  - intros Hanti Hn.
    rewrite <- (ascending_arrangement_unique _ _ Hanti Hn Hp Ha Ha').
    destruct s; reflexivity.
Qed.

(** ** Indicator matching *)

Lemma appended_map_Appended (rs : list VisitRecord) :
  appended (map Appended rs) = rs.
Proof. induction rs as [|r rs IH]; simpl; [|rewrite IH]; reflexivity. Qed.

Lemma diagnostics_map_Appended (rs : list VisitRecord) :
  diagnostics (map Appended rs) = [].
Proof. induction rs as [|r rs IH]; simpl; auto. Qed.

Lemma appended_app (a b : list (Event Timestamp)) :
  appended (a ++ b) = appended a ++ appended b.
Proof. apply flat_map_app. Qed.

Lemma diagnostics_app (a b : list (Event Timestamp)) :
  diagnostics (a ++ b) = diagnostics a ++ diagnostics b.
Proof. apply flat_map_app. Qed.

(** The loop of [check_indicators] appends the matching records, in the
    order of the sequence, and does nothing else. *)
Lemma match_loop ind rs s :
  for_each (match_result ind) rs s =
  mkOutcome
    (mkSelf (results s)
            (detected s ++ filter (fun r => check_domain ind (url r)) rs)
            (indicators s))
    (map Appended (filter (fun r => check_domain ind (url r)) rs))
    (Returned tt).
Proof.
  revert s. induction rs as [|r rs IH]; intros s; simpl.
  - rewrite app_nil_r. destruct s; reflexivity.
  - unfold bind, match_result.
    destruct (check_domain ind (url r)); simpl; rewrite IH; simpl.
    + rewrite <- app_assoc. reflexivity.
    + reflexivity.
Qed.

Lemma check_indicators_run s :
  check_indicators s =
  match completion (_find_injections s) with
  | Raised e => mkOutcome s (trace (_find_injections s)) (Raised e)
  | Returned _ =>
      match indicators s with
      | None => mkOutcome s (trace (_find_injections s)) (Returned tt)
      | Some ind =>
          let hits :=
            filter (fun r => check_domain ind (url r)) (results s) in
          mkOutcome (mkSelf (results s) (detected s ++ hits) (indicators s))
                    (trace (_find_injections s) ++ map Appended hits)
                    (Returned tt)
      end
  end.
Proof.
  unfold check_indicators, bind at 1.
  rewrite (find_injections_preserving s).
  destruct (completion (_find_injections s)) as [[]|e]; [|reflexivity].
  unfold bind, get; cbn [final trace completion].
  destruct (indicators s) as [ind|] eqn:Ei; cbn [final trace completion].
  - rewrite match_loop, Ei. reflexivity.
  - rewrite app_nil_r. reflexivity.
Qed.

Lemma check_indicators_completes s :
  completion (check_indicators s) = completion (_find_injections s).
Proof.
  rewrite check_indicators_run.
  destruct (completion (_find_injections s)) as [[]|e]; [|reflexivity].
  destruct (indicators s); reflexivity.
Qed.

(** C5. Without an indicator set, [check_indicators] is chain analysis
    and nothing more: no record is appended to the detections, which stay
    as they were (empty, when they were), and no error is added. *)
Theorem no_indicators_no_detection s :
  indicators s = None ->
  check_indicators s = _find_injections s
  /\ appended (trace (check_indicators s)) = []
  /\ detected (final (check_indicators s)) = detected s.
Proof.
  intros H.
  assert (E : check_indicators s = _find_injections s).
  { rewrite check_indicators_run, H.
    pose proof (find_injections_preserving s) as Hf.
    destruct (_find_injections s) as [f t [[]|e]]; simpl in *;
      rewrite Hf; reflexivity. }
  rewrite E.
  rewrite (find_injections_preserving s).
  destruct (logged_not_appended _ (find_injections_logs s)) as [Ha _].
  auto.
Qed.

(** C6. With an indicator set, once [check_indicators] has returned, the
    records it appended to the detections are those of the sequence whose
    URL the indicators match, each once, in the order of the sequence. *)
Theorem detections_are_the_matches s ind :
  indicators s = Some ind ->
  completion (check_indicators s) = Returned tt ->
  let hits := filter (fun r => check_domain ind (url r)) (results s) in
  appended (trace (check_indicators s)) = hits
  /\ detected (final (check_indicators s)) = detected s ++ hits
  /\ (detected s = [] -> detected (final (check_indicators s)) = hits)
  /\ (forall r, In r (appended (trace (check_indicators s))) <->
                In r (results s) /\ check_domain ind (url r) = true)
  /\ (NoDup (results s) -> NoDup (appended (trace (check_indicators s)))).
Proof.
  intros Hi Hc hits.
  rewrite check_indicators_completes in Hc.
  assert (Ha : appended (trace (check_indicators s)) = hits).
  { rewrite check_indicators_run, Hc, Hi. cbv zeta. cbn [trace].
    rewrite appended_app.
    destruct (logged_not_appended _ (find_injections_logs s)) as [-> _].
    apply appended_map_Appended. }
  assert (Hd : detected (final (check_indicators s)) = detected s ++ hits).
  { rewrite check_indicators_run, Hc, Hi. reflexivity. }
  rewrite Ha. split; [reflexivity|]. split; [exact Hd|]. split.
  - intros E. rewrite Hd, E. reflexivity.
  - split.
    + intros r. unfold hits. apply filter_In.
    + intros Hn. unfold hits. apply NoDup_filter. exact Hn.
Qed.

(** C7. The actions of [check_indicators] are those of chain analysis,
    all of them diagnostics, followed by the appends of indicator
    matching: no record is appended before the last diagnostic. *)
Theorem diagnostics_precede_detections s :
  trace (check_indicators s) =
  trace (_find_injections s)
  ++ map Appended (appended (trace (check_indicators s)))
  /\ Forall is_logged (trace (_find_injections s))
  /\ diagnostics (trace (check_indicators s)) =
     diagnostics (trace (_find_injections s)).
Proof.
  pose proof (find_injections_logs s) as Hl.
  destruct (logged_not_appended _ Hl) as [Ha _].
  assert (E : exists hits,
             trace (check_indicators s) =
             trace (_find_injections s) ++ map Appended hits).
  { rewrite check_indicators_run.
    destruct (completion (_find_injections s)) as [[]|e].
    - destruct (indicators s) as [ind|]; simpl.
      + eexists; reflexivity.
      + exists []. simpl. rewrite app_nil_r. reflexivity.
    - exists []. simpl. rewrite app_nil_r. reflexivity. }
  destruct E as [hits E]. rewrite E.
  rewrite appended_app, diagnostics_app.
  rewrite Ha, appended_map_Appended, diagnostics_map_Appended, app_nil_r.
  auto.
Qed.

End ChainAnalysis.

(** ** The code on the concrete store *)

(** Scenario A: an HTTP visit redirected to the same domain half a second
    later logs nothing. *)
Example scenario_same_domain :
  trace (Store.find_injections Store.upgrade) = [].
Proof. reflexivity. Qed.

(** Scenario B: redirected to another domain 0.3 s later. *)
Example scenario_fast_redirect :
  trace (Store.find_injections Store.fast_redirect) =
  [Logged (LogInfo (Some "a.com") (Some "b.com")); Logged (LogWarning 300)].
Proof. reflexivity. Qed.

(** Scenario C: redirected to another domain 5 s later. *)
Example scenario_slow_redirect :
  trace (Store.find_injections Store.slow_redirect) =
  [Logged (LogInfo (Some "a.com") (Some "b.com"))].
Proof. reflexivity. Qed.

(** Scenario D: the redirect destination is not in the sequence. *)
Example scenario_lost_redirect :
  Store.find_injections Store.lost_redirect =
  mkOutcome (Store.self_of Store.lost_redirect None) [] (Returned tt).
Proof. reflexivity. Qed.

(** Scenario E: one record of three matches the indicators. *)
Example scenario_one_match :
  detected (final (Store.check Store.three_visits (Some Store.knows_b))) =
  [Store.redirect_b].
Proof. reflexivity. Qed.

(** The elapsed time is cut, not rounded, to whole milliseconds. *)
Example elapsed_ms_is_cut :
  trace (Store.find_injections
           [Store.origin_a;
            Store.visit 2 "https://b.com" (Store.T0 + 300700) None]) =
  [Logged (LogInfo (Some "a.com") (Some "b.com")); Logged (LogWarning 300)].
Proof. reflexivity. Qed.

(** A redirect recorded before its origin is not under one second for
    the test: the seconds of a negative elapsed time are not zero. *)
Example earlier_redirect_not_elevated :
  elapsed Store.convert_mactime_to_unix Store.origin_a
    (Store.visit 2 "https://b.com" (Store.T0 - 300000) None) = Some (- 300000)
  /\ trace (Store.find_injections
              [Store.visit 2 "https://b.com" (Store.T0 - 300000) None;
               Store.origin_a]) =
     [Logged (LogInfo (Some "a.com") (Some "b.com"))].
Proof. split; reflexivity. Qed.

(** C1. The pair below is reported as a redirect to another domain and the
    visit redirected to is one day and 0.3 s after the origin; the
    elevated diagnostic is logged all the same, as 300 milliseconds. *)
Theorem redirect_a_day_later_warned_as_sub_second :
  cross_domain Store.URL_domain Store.origin_a Store.late_redirect_b = true
  /\ elapsed Store.convert_mactime_to_unix
       Store.origin_a Store.late_redirect_b
     = Some (86400 * 1000000 + 300000)
  /\ Store.find_injections Store.late_redirect =
     mkOutcome (Store.self_of Store.late_redirect None)
       [Logged (LogInfo (Some "a.com") (Some "b.com"));
        Logged (LogWarning 300)]
       (Returned tt).
Proof. repeat split. Qed.

Lemma non_http_or_no_redirect_is_skipped_witness :
  Store.inspect Store.origin_https [Store.origin_https; Store.redirect_b] =
  ret tt (Store.self_of [Store.origin_https; Store.redirect_b] None)
  /\ Store.inspect (Store.visit 1 "http://a.com" Store.T0 None)
       [Store.visit 1 "http://a.com" Store.T0 None; Store.redirect_b] =
     ret tt (Store.self_of
               [Store.visit 1 "http://a.com" Store.T0 None; Store.redirect_b]
               None).
Proof.
  split; apply non_http_or_no_redirect_is_skipped;
    [left | right]; reflexivity.
Defined.

Lemma zero_destination_is_no_destination_witness :
  Store.inspect Store.origin_zero Store.zero_redirect =
  ret tt (Store.self_of Store.zero_redirect None)
  /\ Store.inspect Store.origin_zero Store.zero_redirect =
     Store.inspect (with_destination Store.origin_zero None)
                   Store.zero_redirect.
Proof.
  apply (zero_destination_is_no_destination _ Store.convert_mactime_to_unix
           Store.URL_domain Store.origin_zero).
  reflexivity.
Defined.

Lemma same_domain_pair_is_silent_witness :
  Store.inspect_pair Store.origin_a
    (Store.visit 2 "https://a.com" (Store.T0 + 500000) None) Store.upgrade =
  ret tt (Store.self_of Store.upgrade None)
  /\ Store.inspect Store.origin_a Store.upgrade =
     ret tt (Store.self_of Store.upgrade None).
Proof.
  destruct (same_domain_pair_is_silent _ Store.convert_mactime_to_unix
              Store.URL_domain Store.origin_a
              (Store.visit 2 "https://a.com" (Store.T0 + 500000) None)
              (Store.self_of Store.upgrade None)) as [H1 H2].
  - right. left. reflexivity.
  - reflexivity.
  - reflexivity.
  - split; [exact H1|]. apply H2.
    intros r [<-|[<-|[]]] Hr; [discriminate Hr | reflexivity].
Defined.

Lemma dangling_reference_is_skipped_witness :
  Store.inspect Store.origin_lost Store.lost_redirect =
  ret tt (Store.self_of Store.lost_redirect None)
  /\ Store.find_injections Store.lost_redirect =
     for_each (inspect_result Store.convert_mactime_to_unix Store.URL_domain)
              [Store.redirect_b] (Store.self_of Store.lost_redirect None).
Proof.
  destruct (dangling_reference_is_skipped _ Store.convert_mactime_to_unix
              Store.URL_domain Store.origin_lost
              (Store.self_of Store.lost_redirect None)) as [H1 H2].
  - repeat constructor.
  - split; [exact H1|]. apply (H2 [] [Store.redirect_b]). reflexivity.
Defined.

Lemma no_indicators_no_detection_witness :
  Store.check Store.fast_redirect None =
  Store.find_injections Store.fast_redirect
  /\ appended (trace (Store.check Store.fast_redirect None)) = []
  /\ detected (final (Store.check Store.fast_redirect None)) = [].
Proof.
  apply (no_indicators_no_detection _ Store.convert_mactime_to_unix
           Store.URL_domain (Store.self_of Store.fast_redirect None)).
  reflexivity.
Defined.

Lemma detections_are_the_matches_witness :
  appended (trace (Store.check Store.three_visits (Some Store.knows_b))) =
  [Store.redirect_b]
  /\ detected (final (Store.check Store.three_visits (Some Store.knows_b))) =
     [Store.redirect_b].
Proof.
  destruct (detections_are_the_matches _ Store.convert_mactime_to_unix
              Store.URL_domain
              (Store.self_of Store.three_visits (Some Store.knows_b))
              Store.knows_b eq_refl eq_refl) as (H1 & _ & H2 & _).
  split; [exact H1 | exact (H2 eq_refl)].
Defined.

Lemma ascending_tie_ac : ascending Store.ts_le Store.tie_ac.
Proof.
  unfold ascending, Store.ts_le, Store.tie_ac.
  repeat constructor; simpl; unfold Store.T0; lia.
Defined.

Lemma ascending_tie_ca : ascending Store.ts_le Store.tie_ca.
Proof.
  unfold ascending, Store.ts_le, Store.tie_ca.
  repeat constructor; simpl; unfold Store.T0; lia.
Defined.

Lemma ascending_no_tie : ascending Store.ts_le Store.no_tie.
Proof.
  unfold ascending, Store.ts_le, Store.no_tie.
  repeat constructor; simpl; unfold Store.T0; lia.
Defined.

Lemma resorted_copy_same_diagnostics_witness :
  Permutation
    (diagnostics (trace (Store.find_injections Store.tie_ac)))
    (diagnostics (trace (Store.find_injections Store.tie_ca)))
  /\ diagnostics (trace (Store.find_injections Store.no_tie)) =
     diagnostics
       (trace (_find_injections Store.convert_mactime_to_unix
                 Store.URL_domain
                 (with_results (Store.self_of Store.no_tie None)
                               Store.no_tie))).
Proof.
  split.
  - apply (resorted_copy_same_diagnostics _ Store.convert_mactime_to_unix
             Store.URL_domain Store.ts_le
             (Store.self_of Store.tie_ac None) Store.tie_ca).
    + apply perm_swap.
    + exact ascending_tie_ac.
    + exact ascending_tie_ca.
    + reflexivity.
  - destruct (resorted_copy_same_diagnostics _ Store.convert_mactime_to_unix
                Store.URL_domain Store.ts_le
                (Store.self_of Store.no_tie None) Store.no_tie
                (Permutation_refl _) ascending_no_tie ascending_no_tie
                eq_refl) as (_ & _ & H).
    apply H.
    + unfold Store.ts_le. intros a b; lia.
    + vm_compute.
      repeat (apply NoDup_cons; [simpl; intuition discriminate|]).
      apply NoDup_nil.
Defined.

(** C9, refuted as stated. Visits 1 and 3 were made at the same time, so
    both sequences are ascending and each is a permuted copy of the other;
    their diagnostics come in different orders. *)
Lemma tied_visits_log_in_another_order :
  Permutation Store.tie_ac Store.tie_ca
  /\ ascending Store.ts_le Store.tie_ac
  /\ ascending Store.ts_le Store.tie_ca
  /\ diagnostics (trace (Store.find_injections Store.tie_ac)) =
     [LogInfo (Some "a.com") (Some "b.com"); LogWarning 300;
      LogInfo (Some "c.com") (Some "d.com"); LogWarning 400]
  /\ diagnostics (trace (Store.find_injections Store.tie_ca)) =
     [LogInfo (Some "c.com") (Some "d.com"); LogWarning 400;
      LogInfo (Some "a.com") (Some "b.com"); LogWarning 300]
  /\ diagnostics (trace (Store.find_injections Store.tie_ac)) <>
     diagnostics (trace (Store.find_injections Store.tie_ca)).
Proof.
  split; [apply perm_swap|].
  split; [exact ascending_tie_ac|].
  split; [exact ascending_tie_ca|].
  split; [reflexivity|]. split; [reflexivity|].
  discriminate.
Qed.

(** * Further properties *)

(** ** More facts on the effects *)

Section LoopFacts.

Context {St Ev : Type}.

Lemma trace_bind_cases {A B} (m : M St Ev A) (k : A -> M St Ev B) s :
  trace (bind m k s) = trace (m s)
  \/ exists a, completion (m s) = Returned a
               /\ trace (bind m k s) =
                  trace (m s) ++ trace (k a (final (m s))).
Proof.
  unfold bind. destruct (completion (m s)) as [a|e]; simpl.
  - right. exists a. auto.
  - left. reflexivity.
Qed.

(** A property of traces kept by concatenation is kept by a loop. *)
Lemma trace_for_each_closed {A} (Q : list Ev -> Prop)
    (body : A -> M St Ev unit) xs :
  Q [] ->
  (forall a b, Q a -> Q b -> Q (a ++ b)) ->
  (forall x s, Q (trace (body x s))) ->
  forall s, Q (trace (for_each body xs s)).
Proof.
  intros Hnil Happ Hb. induction xs as [|x xs IH]; intros s; simpl.
  - exact Hnil.
  - destruct (trace_bind_cases (body x) (fun _ => for_each body xs) s)
      as [-> | (a & _ & ->)]; auto.
Qed.

Lemma trace_for_each_length {A} (body : A -> M St Ev unit) xs n :
  (forall x s, (List.length (trace (body x s)) <= n)%nat) ->
  forall s,
    (List.length (trace (for_each body xs s)) <= n * List.length xs)%nat.
Proof.
  intros Hb. induction xs as [|x xs IH]; intros s; simpl.
  - lia.
  - destruct (trace_bind_cases (body x) (fun _ => for_each body xs) s)
      as [-> | (a & _ & ->)].
    + specialize (Hb x s). lia.
    + rewrite length_app.
      specialize (Hb x s). specialize (IH (final (body x s))). lia.
Qed.

(** A loop of bodies with known outcomes. *)
Lemma for_each_outcomes {A} (body : A -> M St Ev unit)
    (tr : A -> list Ev) xs s :
  Forall (fun x => body x s = mkOutcome s (tr x) (Returned tt)) xs ->
  for_each body xs s = mkOutcome s (flat_map tr xs) (Returned tt).
Proof.
  induction 1 as [|x xs Hx _ IH]; simpl; [reflexivity|].
  unfold bind. rewrite Hx. simpl. rewrite IH. reflexivity.
Qed.

(** Two loops whose bodies do the same, each in its own state. *)
Lemma for_each_agree {A} (body body' : A -> M St Ev unit) xs s s' :
  (forall x, preserving (body x)) ->
  (forall x, preserving (body' x)) ->
  Forall (fun x => trace (body x s) = trace (body' x s')
                   /\ completion (body x s) = completion (body' x s')) xs ->
  trace (for_each body xs s) = trace (for_each body' xs s')
  /\ completion (for_each body xs s) = completion (for_each body' xs s').
Proof.
  intros Hp Hp'. induction 1 as [|x xs [Ht Hc] _ [IHt IHc]]; simpl.
  - auto.
  - unfold bind. rewrite <- Hc, <- Ht.
    destruct (completion (body x s)) as [[]|e]; simpl; [|auto].
    rewrite Hp, Hp', IHt, IHc. auto.
Qed.

(** A silent loop, when a body cannot raise before it has acted. *)
Lemma for_each_silent_inv {A} (body : A -> M St Ev unit) xs s :
  (forall x, preserving (body x)) ->
  (forall x, trace (body x s) = [] -> completion (body x s) = Returned tt) ->
  trace (for_each body xs s) = [] ->
  Forall (fun x => trace (body x s) = []) xs
  /\ completion (for_each body xs s) = Returned tt.
Proof.
  intros Hp Hq. induction xs as [|x xs IH]; simpl; intros H.
  - auto.
  - unfold bind in *.
    destruct (completion (body x s)) as [[]|e] eqn:E; simpl in *.
    + apply app_eq_nil in H as [H1 H2]. rewrite Hp in *.
      destruct (IH H2) as [IH1 IH2]. auto.
    + rewrite (Hq x H) in E. discriminate.
Qed.

End LoopFacts.

(** ** What chain analysis logs, and when it raises *)

Section ChainReports.

Variable Timestamp : Type.
Variable convert_mactime_to_unix : Timestamp -> option datetime.
Variable URL_domain : string -> option string.

Local Abbreviation VisitRecord := (VisitRecord Timestamp).
Local Abbreviation Self := (Self Timestamp).
Local Abbreviation inspect_redirect :=
  (inspect_redirect convert_mactime_to_unix URL_domain).
Local Abbreviation inspect_result :=
  (inspect_result convert_mactime_to_unix URL_domain).
Local Abbreviation _find_injections :=
  (_find_injections convert_mactime_to_unix URL_domain).
Local Abbreviation check_indicators :=
  (check_indicators convert_mactime_to_unix URL_domain).
Local Abbreviation cross_domain := (cross_domain URL_domain).
Local Abbreviation elapsed := (elapsed convert_mactime_to_unix).
Local Abbreviation report := (report convert_mactime_to_unix URL_domain).
Local Abbreviation reports := (reports convert_mactime_to_unix URL_domain).
Local Abbreviation convertible :=
  (convertible convert_mactime_to_unix URL_domain).

Implicit Types (s : Self) (result origin redirect : VisitRecord).

Lemma flat_map_map {A B C} (f : B -> C) (g : A -> list B) l :
  flat_map (fun x => map f (g x)) l = map f (flat_map g l).
Proof.
  induction l as [|x l IH]; simpl; [reflexivity|].
  rewrite IH, map_app. reflexivity.
Qed.

Lemma flat_map_nothing {A B} (g : A -> list B) l :
  Forall (fun x => g x = []) l -> flat_map g l = [].
Proof.
  induction 1 as [|x l Hx _ IH]; simpl; [reflexivity|].
  rewrite Hx, IH. reflexivity.
Qed.

Lemma diagnostics_map_Logged (l : list LogEvent) :
  diagnostics (map (@Logged Timestamp) l) = l.
Proof. induction l as [|e l IH]; simpl; [|rewrite IH]; reflexivity. Qed.

Lemma cross_domain_origin origin redirect :
  cross_domain origin redirect = true ->
  is_plain_http (url origin) = true
  /\ truthy (redirect_destination origin) = true
  /\ redirects_to origin redirect = true
  /\ URL_domain (url origin) <> URL_domain (url redirect).
Proof.
  unfold cross_domain. intros H.
  apply andb_prop in H as [H Hd]. apply andb_prop in H as [H Ht].
  apply andb_prop in H as [Hh Hr].
  repeat split; auto.
  intros E. apply domain_eqb_eq in E. rewrite E in Hd. discriminate.
Qed.

Lemma report_skipped origin redirect :
  is_plain_http (url origin) = false
  \/ truthy (redirect_destination origin) = false ->
  report origin redirect = [].
Proof.
  unfold report, cross_domain.
  intros [-> | ->]; [|rewrite andb_false_r]; reflexivity.
Qed.

(** The inner loop body logs the report of its pair. *)
Lemma inspect_redirect_reports origin redirect s :
  is_plain_http (url origin) = true ->
  truthy (redirect_destination origin) = true ->
  (cross_domain origin redirect = true -> elapsed origin redirect <> None) ->
  inspect_redirect origin (URL_domain (url origin)) redirect s =
  mkOutcome s (map Logged (report origin redirect)) (Returned tt).
Proof.
  intros Hh Ht Hc. unfold report.
  destruct (cross_domain origin redirect) eqn:Ex.
  - destruct (cross_domain_origin _ _ Ex) as (_ & _ & Hto & Hne).
    rewrite (inspect_redirect_reported _ convert_mactime_to_unix URL_domain
               origin redirect s Hto Hne).
    destruct (elapsed origin redirect) as [d|];
      [|exfalso; apply Hc; reflexivity].
    cbv zeta. destruct (_ =? 0); reflexivity.
  - unfold cross_domain in Ex. rewrite Hh, Ht in Ex. simpl in Ex.
    destruct (redirects_to origin redirect) eqn:Et; simpl in Ex.
    + apply negb_false_iff, domain_eqb_eq in Ex.
      apply inspect_redirect_same_domain. exact Ex.
    + apply inspect_redirect_other. exact Et.
Qed.

(** The outer loop body logs the reports of its origin. *)
Lemma inspect_result_reports origin s :
  (forall redirect, In redirect (results s) ->
     cross_domain origin redirect = true ->
     elapsed origin redirect <> None) ->
  inspect_result origin s =
  mkOutcome s (map Logged (flat_map (report origin) (results s)))
            (Returned tt).
Proof.
  intros Hc.
  destruct (is_plain_http (url origin)) eqn:Eh;
    [destruct (truthy (redirect_destination origin)) eqn:Et|].
  - rewrite inspect_result_scans by assumption.
    rewrite <- flat_map_map. apply for_each_outcomes.
    apply Forall_forall. intros r Hr.
    apply inspect_redirect_reports; auto.
  - rewrite inspect_result_skipped by auto.
    rewrite flat_map_nothing; [reflexivity|].
    apply Forall_forall. intros r _. apply report_skipped. auto.
  - rewrite inspect_result_skipped by auto.
    rewrite flat_map_nothing; [reflexivity|].
    apply Forall_forall. intros r _. apply report_skipped. auto.
Qed.

Lemma find_injections_run s :
  convertible (results s) ->
  _find_injections s =
  mkOutcome s (map Logged (reports (results s))) (Returned tt).
Proof.
  intros Hc. rewrite find_injections_loop. unfold reports.
  rewrite <- flat_map_map. apply for_each_outcomes.
  apply Forall_forall. intros o Ho.
  apply inspect_result_reports. intros r Hr Hx. apply (Hc o r); assumption.
Qed.

Lemma find_injections_returned_convertible s :
  completion (_find_injections s) = Returned tt ->
  convertible (results s).
Proof.
  intros Hc o r Ho Hr Hx He.
  rewrite find_injections_loop in Hc.
  apply for_each_returned_inv in Hc;
    [|intros x; apply inspect_result_preserving].
  rewrite Forall_forall in Hc. specialize (Hc o Ho).
  destruct (cross_domain_origin _ _ Hx) as (Hh & Ht & _ & _).
  rewrite inspect_result_scans in Hc by assumption.
  apply for_each_returned_inv in Hc;
    [|intros x; apply inspect_redirect_preserving].
  rewrite Forall_forall in Hc. specialize (Hc r Hr).
  rewrite (reported_pair_unconverted _ convert_mactime_to_unix URL_domain
             o r s Hx He) in Hc.
  discriminate.
Qed.

(** X1. When the times of every pair to report convert, chain analysis
    returns, leaves [self] alone, and logs the reports of all pairs:
    origin after origin, and for each origin redirect after redirect, in
    the order of the sequence. *)
Theorem chain_analysis_logs_the_reports s :
  convertible (results s) ->
  _find_injections s =
  mkOutcome s (map Logged (reports (results s))) (Returned tt).
Proof. apply find_injections_run. Qed.

(** X2. Chain analysis returns exactly when the times of every pair to
    report convert; else the subtraction raises [TypeError]. *)
Theorem chain_analysis_returns_iff s :
  (completion (_find_injections s) = Returned tt <->
   convertible (results s))
  /\ (completion (_find_injections s) <> Returned tt ->
      completion (_find_injections s) = Raised TypeError).
Proof.
  split; [split|].
  - apply find_injections_returned_convertible.
  - intros H. rewrite (find_injections_run s H). reflexivity.
  - destruct (completion (_find_injections s)) as [[]|[]]; intros H;
      [contradiction | reflexivity].
Qed.

(** *** Silence *)

Lemma inspect_redirect_acts_before_raising result od redirect s :
  trace (inspect_redirect result od redirect s) = [] ->
  completion (inspect_redirect result od redirect s) = Returned tt.
Proof.
  unfold inspect_redirect, log_info, log_warning, datetime_sub,
    bind, act, ret, raise; simpl.
  destruct (py_ne _ _); simpl; auto.
  destruct (domain_eqb _ _); simpl; auto.
  discriminate.
Qed.

Lemma inspect_result_acts_before_raising result s :
  trace (inspect_result result s) = [] ->
  completion (inspect_result result s) = Returned tt.
Proof.
  destruct (inspect_result_cases _ convert_mactime_to_unix URL_domain
              result s) as [-> | ->]; [reflexivity|].
  intros H. apply for_each_silent_inv in H; [apply H | |].
  - intros x. apply inspect_redirect_preserving.
  - intros x. apply inspect_redirect_acts_before_raising.
Qed.

(** X3. Chain analysis logs nothing at all exactly when the sequence
    holds no pair that is a redirect to another domain. *)
Theorem chain_analysis_silent_iff s :
  trace (_find_injections s) = [] <->
  (forall origin redirect,
     In origin (results s) -> In redirect (results s) ->
     cross_domain origin redirect = false).
Proof.
  split.
  - intros H o r Ho Hr.
    destruct (cross_domain o r) eqn:Ex; [exfalso|reflexivity].
    rewrite find_injections_loop in H.
    apply for_each_silent_inv in H as [H _].
    + rewrite Forall_forall in H. specialize (H o Ho).
      destruct (cross_domain_origin _ _ Ex) as (Hh & Ht & Hto & Hne).
      rewrite inspect_result_scans in H by assumption.
      apply for_each_silent_inv in H as [H _].
      * rewrite Forall_forall in H. specialize (H r Hr).
        rewrite (inspect_redirect_reported _ convert_mactime_to_unix
                   URL_domain o r s Hto Hne) in H.
        cbv zeta in H. destruct (elapsed o r); discriminate H.
      * intros x. apply inspect_redirect_preserving.
      * intros x. apply inspect_redirect_acts_before_raising.
    + intros x. apply inspect_result_preserving.
    + intros x. apply inspect_result_acts_before_raising.
  - intros H. rewrite find_injections_run.
    + simpl. unfold reports. rewrite flat_map_nothing; [reflexivity|].
      apply Forall_forall. intros o Ho.
      apply flat_map_nothing. apply Forall_forall. intros r Hr.
      unfold report. rewrite (H o r Ho Hr). reflexivity.
    + intros o r Ho Hr Hx. rewrite (H o r Ho Hr) in Hx. discriminate.
Qed.

(** *** A time that does not convert *)

(** X4. When a pair to report has a time that does not convert,
    [check_indicators] raises [TypeError] out of chain analysis: it leaves
    [self] as it was and appends no detection, whatever the indicators
    match. *)
Theorem unconverted_time_ends_the_check s origin redirect :
  In origin (results s) -> In redirect (results s) ->
  cross_domain origin redirect = true ->
  elapsed origin redirect = None ->
  completion (check_indicators s) = Raised TypeError
  /\ final (check_indicators s) = s
  /\ appended (trace (check_indicators s)) = [].
Proof.
  intros Ho Hr Hx He.
  assert (Hc : completion (_find_injections s) = Raised TypeError).
  { destruct (completion (_find_injections s)) as [[]|[]] eqn:E;
      [exfalso|reflexivity].
    apply (find_injections_returned_convertible s E origin redirect);
      assumption. }
  rewrite check_indicators_run, Hc. simpl.
  repeat split.
  apply logged_not_appended, find_injections_logs.
Qed.

(** *** The shape of the log *)

Lemma inspect_redirect_ms_in_range result od redirect s :
  Forall ms_in_range (trace (inspect_redirect result od redirect s)).
Proof.
  unfold inspect_redirect, log_info, log_warning, datetime_sub,
    bind, act, ret, raise; simpl.
  destruct (py_ne _ _); simpl; auto.
  destruct (domain_eqb _ _); simpl; auto.
  destruct (convert_mactime_to_unix (timestamp redirect)) as [a|]; simpl;
    [|repeat constructor].
  destruct (convert_mactime_to_unix (timestamp result)) as [b|]; simpl;
    [|repeat constructor].
  destruct (_ =? 0); simpl; repeat constructor; simpl.
  - apply Z.div_pos; [|lia].
    apply Z.mod_pos_bound. lia.
  - pose proof (Z.mod_pos_bound (a - b) 1000000 ltac:(lia)) as Hb.
    assert ((a - b) mod 1000000 / 1000 < 1000); [|lia].
    apply Z.div_lt_upper_bound; lia.
Qed.

(** X5. The milliseconds of every elevated diagnostic are between 0 and
    999, whatever the elapsed time of the pair. *)
Theorem warning_milliseconds_in_range s :
  Forall ms_in_range (trace (check_indicators s)).
Proof.
  assert (H : Forall ms_in_range (trace (_find_injections s))).
  { rewrite find_injections_loop.
    apply trace_for_each_Forall. intros o s'.
    destruct (inspect_result_cases _ convert_mactime_to_unix URL_domain
                o s') as [-> | ->]; [constructor|].
    apply trace_for_each_Forall. intros r s''.
    apply inspect_redirect_ms_in_range. }
  rewrite check_indicators_run.
  destruct (completion (_find_injections s)) as [[]|e]; [|exact H].
  destruct (indicators s) as [ind|]; [|exact H].
  cbv zeta. simpl trace. apply Forall_app. split; [exact H|].
  apply Forall_forall. intros e He. apply in_map_iff in He as (r & <- & _).
  exact I.
Qed.

(** Traces made of the diagnostics of pairs. *)
Lemma blocks_closed (a b : list (Event Timestamp)) :
  (exists bs, Forall is_block bs /\ a = map Logged (List.concat bs)) ->
  (exists bs, Forall is_block bs /\ b = map Logged (List.concat bs)) ->
  exists bs, Forall is_block bs /\ a ++ b = map Logged (List.concat bs).
Proof.
  intros (bs1 & H1 & ->) (bs2 & H2 & ->). exists (bs1 ++ bs2). split.
  - apply Forall_app. auto.
  - rewrite concat_app, map_app. reflexivity.
Qed.

Lemma inspect_redirect_blocks result od redirect s :
  exists bs, Forall is_block bs
             /\ trace (inspect_redirect result od redirect s) =
                map Logged (List.concat bs).
Proof.
  unfold inspect_redirect, log_info, log_warning, datetime_sub,
    bind, act, ret, raise; simpl.
  destruct (py_ne _ _); simpl; [exists []; auto|].
  destruct (domain_eqb _ _); simpl; [exists []; auto|].
  set (info := LogInfo od (URL_domain (url redirect))).
  assert (Hinfo : Forall is_block [[info]]) by (repeat constructor).
  destruct (convert_mactime_to_unix (timestamp redirect)) as [a|]; simpl;
    [|exists [[info]]; auto].
  destruct (convert_mactime_to_unix (timestamp result)) as [b|]; simpl;
    [|exists [[info]]; auto].
  destruct (_ =? 0); simpl.
  - exists [[info; LogWarning ((a - b) mod 1000000 / 1000)]].
    split; [repeat constructor | reflexivity].
  - exists [[info]]. auto.
Qed.

Lemma warning_in_blocks bs pre ms post :
  Forall is_block bs ->
  List.concat bs = pre ++ LogWarning ms :: post ->
  exists pre' o r, pre = pre' ++ [LogInfo o r].
Proof.
  intros H. revert pre.
  induction H as [|b bs Hb _ IH]; intros pre E; simpl in E.
  - destruct pre; discriminate.
  - destruct b as [|[o r|w] [|[o' r'|w'] [|x b]]]; simpl in Hb;
      try contradiction; simpl in E.
    + destruct pre as [|e pre]; simpl in E; [discriminate|].
      injection E as <- E.
      destruct (IH _ E) as (pre' & o1 & r1 & ->).
      exists (LogInfo o r :: pre'), o1, r1. reflexivity.
    + destruct pre as [|e [|e' pre]]; simpl in E; try discriminate.
      * injection E as <- _. exists [], o, r. reflexivity.
      * injection E as <- <- E.
        destruct (IH _ E) as (pre' & o1 & r1 & ->).
        exists (LogInfo o r :: LogWarning w' :: pre'), o1, r1.
        reflexivity.
Qed.

(** X6. The diagnostics of chain analysis come pair by pair, an
    informational one alone or followed by its elevated one; so every
    elevated diagnostic comes right after an informational one, also in
    a run that raises. *)
Theorem warnings_follow_their_info s :
  (exists bs, Forall is_block bs
              /\ diagnostics (trace (_find_injections s)) = List.concat bs)
  /\ (forall pre ms post,
        diagnostics (trace (_find_injections s)) =
        pre ++ LogWarning ms :: post ->
        exists pre' o r, pre = pre' ++ [LogInfo o r]).
Proof.
  assert (H : exists bs, Forall is_block bs
                /\ diagnostics (trace (_find_injections s)) = List.concat bs).
  { assert (Q : exists bs, Forall is_block bs
                  /\ trace (_find_injections s) = map Logged (List.concat bs)).
    { rewrite find_injections_loop.
      apply trace_for_each_closed.
      - exists []. auto.
      - apply blocks_closed.
      - intros o s'.
        destruct (inspect_result_cases _ convert_mactime_to_unix URL_domain
                    o s') as [-> | ->]; [exists []; auto|].
        apply trace_for_each_closed.
        + exists []. auto.
        + apply blocks_closed.
        + intros r s''. apply inspect_redirect_blocks. }
    destruct Q as (bs & Hb & ->). exists bs. split; [exact Hb|].
    apply diagnostics_map_Logged. }
  split; [exact H|].
  destruct H as (bs & Hb & ->). intros pre ms post E.
  eapply warning_in_blocks; eassumption.
Qed.

(** *** Unique visit ids *)

Lemma inspect_redirect_at_most_two result od redirect s :
  (List.length (trace (inspect_redirect result od redirect s)) <= 2)%nat.
Proof.
  unfold inspect_redirect, log_info, log_warning, datetime_sub,
    bind, act, ret, raise; simpl.
  destruct (py_ne _ _); simpl; auto.
  destruct (domain_eqb _ _); simpl; auto.
  destruct (convert_mactime_to_unix (timestamp redirect)); simpl; auto.
  destruct (convert_mactime_to_unix (timestamp result)); simpl; auto.
  destruct (_ =? 0); simpl; auto.
Qed.

Lemma redirects_to_same_id origin r r' :
  redirects_to origin r = true -> redirects_to origin r' = true ->
  visit_id r' = visit_id r.
Proof.
  unfold redirects_to, py_ne.
  destruct (redirect_destination origin) as [v|]; [|discriminate].
  rewrite !negb_involutive. intros H H'.
  apply Z.eqb_eq in H, H'. congruence.
Qed.

(** The scan meets at most one record with the visit id redirected to. *)
Lemma scan_at_most_two origin od rs s :
  NoDup (map visit_id rs) ->
  (List.length (trace (for_each (inspect_redirect origin od) rs s)) <= 2)%nat.
Proof.
  induction rs as [|x rs IH]; simpl; intros Hn; [lia|].
  inversion Hn as [|? ? Hnotin Hn']; subst.
  destruct (redirects_to origin x) eqn:Ex.
  - assert (Hrest : forall s', for_each (inspect_redirect origin od) rs s' =
                               ret tt s').
    { intros s'. apply scan_without_target. apply Forall_forall.
      intros r Hr. destruct (redirects_to origin r) eqn:Er; [|reflexivity].
      exfalso. apply Hnotin.
      rewrite <- (redirects_to_same_id origin x r Ex Er).
      apply in_map. exact Hr. }
    destruct (trace_bind_cases (inspect_redirect origin od x)
                (fun _ => for_each (inspect_redirect origin od) rs) s)
      as [-> | (a & _ & ->)].
    + apply inspect_redirect_at_most_two.
    + rewrite Hrest. simpl. rewrite app_nil_r.
      apply inspect_redirect_at_most_two.
  - unfold bind.
    rewrite (inspect_redirect_other _ convert_mactime_to_unix URL_domain
               origin od x s Ex).
    simpl. apply IH. exact Hn'.
Qed.

(** X7. When no two records have the same visit id, an origin yields at
    most its informational diagnostic and its elevated one, and a run at
    most two diagnostics for each record of the sequence. *)
Theorem unique_visit_ids_bound_the_log s :
  NoDup (map visit_id (results s)) ->
  (forall origin,
     (List.length (trace (inspect_result origin s)) <= 2)%nat)
  /\ (List.length (trace (_find_injections s))
      <= 2 * List.length (results s))%nat.
Proof.
  intros Hn.
  assert (H : forall origin s', results s' = results s ->
                (List.length (trace (inspect_result origin s')) <= 2)%nat).
  { intros o s' Hs.
    destruct (inspect_result_cases _ convert_mactime_to_unix URL_domain
                o s') as [-> | ->]; [simpl; lia|].
    apply scan_at_most_two. rewrite Hs. exact Hn. }
  split; [intros o; apply H; reflexivity|].
  rewrite find_injections_loop.
  assert (G : forall xs s', results s' = results s ->
                (List.length (trace (for_each inspect_result xs s'))
                 <= 2 * List.length xs)%nat).
  { induction xs as [|x xs IH]; intros s' Hs; simpl; [lia|].
    destruct (trace_bind_cases (inspect_result x)
                (fun _ => for_each inspect_result xs) s')
      as [-> | (a & _ & ->)].
    - specialize (H x s' Hs). lia.
    - rewrite length_app.
      rewrite (inspect_result_preserving _ convert_mactime_to_unix
                 URL_domain x s').
      specialize (H x s' Hs). specialize (IH s' Hs). lia. }
  apply G. reflexivity.
Qed.

(** *** What [check_indicators] reads and writes *)

(** X8. [check_indicators] never changes the sequence of results nor the
    indicators, and only appends to the detections: they are the previous
    ones followed by the records appended in the run, whether it returns
    or raises. *)
Theorem check_indicators_only_appends s :
  results (final (check_indicators s)) = results s
  /\ indicators (final (check_indicators s)) = indicators s
  /\ detected (final (check_indicators s)) =
     detected s ++ appended (trace (check_indicators s)).
Proof.
  destruct (logged_not_appended _ _
              (find_injections_logs _ convert_mactime_to_unix URL_domain s))
    as [Ha _].
  rewrite check_indicators_run.
  destruct (completion (_find_injections s)) as [[]|e];
    [destruct (indicators s) as [ind|] eqn:Ei|];
    cbv zeta; cbn [final trace results detected indicators].
  - rewrite appended_app, Ha, appended_map_Appended. auto.
  - rewrite Ha, app_nil_r. auto.
  - rewrite Ha, app_nil_r. auto.
Qed.

(** Chain analysis reads nothing of [self] but the results. *)
Lemma find_injections_reads_results s s' :
  results s = results s' ->
  trace (_find_injections s) = trace (_find_injections s')
  /\ completion (_find_injections s) = completion (_find_injections s').
Proof.
  intros Hs. rewrite !find_injections_loop, <- Hs.
  apply for_each_agree; try (intros x; apply inspect_result_preserving).
  apply Forall_forall. intros o _.
  destruct (is_plain_http (url o)) eqn:Eh;
    [destruct (truthy (redirect_destination o)) eqn:Et|].
  - rewrite !inspect_result_scans by assumption. rewrite <- Hs.
    apply for_each_agree; try (intros x; apply inspect_redirect_preserving).
    apply Forall_forall. intros r _. apply inspect_redirect_stateless.
  - rewrite !inspect_result_skipped by auto. auto.
  - rewrite !inspect_result_skipped by auto. auto.
Qed.


(** X10. Nothing is deduplicated: a second [check_indicators] after one
    that returned does what the first did, the same diagnostics and the
    same appends, so that each match is in the detections twice. *)
Theorem second_check_appends_again s ind :
  indicators s = Some ind ->
  completion (check_indicators s) = Returned tt ->
  let hits := filter (fun r => check_domain ind (url r)) (results s) in
  let s1 := final (check_indicators s) in
  trace (check_indicators s1) = trace (check_indicators s)
  /\ completion (check_indicators s1) = Returned tt
  /\ detected (final (check_indicators s1)) = detected s ++ hits ++ hits.
Proof.
  intros Hi Hc. cbv zeta.
  set (hits := filter (fun r => check_domain ind (url r)) (results s)).
  rewrite check_indicators_completes in Hc.
  assert (E1 : final (check_indicators s) =
               mkSelf (results s) (detected s ++ hits) (indicators s)).
  { rewrite check_indicators_run, Hc, Hi. reflexivity. }
  rewrite E1.
  set (s1 := mkSelf (results s) (detected s ++ hits) (indicators s)).
  destruct (find_injections_reads_results s1 s eq_refl) as [Ht Hc'].
  rewrite Hc in Hc'.
  rewrite (check_indicators_run _ convert_mactime_to_unix URL_domain s1).
  rewrite (check_indicators_run _ convert_mactime_to_unix URL_domain s).
  rewrite Hc, Hc', Ht. cbn [s1 indicators results detected]. rewrite Hi.
  cbv zeta. cbn [final trace completion detected]. fold hits.
  rewrite <- app_assoc. auto.
Qed.

(** *** The test on the elapsed time, within a day *)

(** X11. For a pair to report whose elapsed time is at least zero and
    under one day, the pair returns with its informational diagnostic,
    it logs an elevated one exactly when the elapsed time is under one
    second, and that one carries the whole milliseconds elapsed. *)
Theorem elevated_iff_sub_second_within_a_day origin redirect s d :
  cross_domain origin redirect = true ->
  elapsed origin redirect = Some d ->
  0 <= d < 86400 * 1000000 ->
  let o := inspect_redirect origin (URL_domain (url origin)) redirect s in
  completion o = Returned tt
  /\ In (Logged (LogInfo (URL_domain (url origin))
                         (URL_domain (url redirect)))) (trace o)
  /\ ((exists ms, In (Logged (LogWarning ms)) (trace o)) <-> d < 1000000)
  /\ (forall ms, In (Logged (LogWarning ms)) (trace o) -> ms = d / 1000).
Proof.
  intros Hx He Hd o. unfold o.
  rewrite (reported_pair_within_a_day _ convert_mactime_to_unix URL_domain
             origin redirect s d Hx He Hd).
  simpl. split; [reflexivity|]. split; [left; reflexivity|].
  destruct (Z.ltb_spec d 1000000) as [Hlt|Hge]; simpl.
  - split.
    + split; [intros _; exact Hlt|].
      intros _. exists (d / 1000). right. left. reflexivity.
    + intros ms [H|[H|[]]]; [discriminate|]. congruence.
  - split.
    + split; [|lia]. intros [ms [H|[]]]. discriminate.
    + intros ms [H|[]]. discriminate.
Qed.

End ChainReports.

(** ** [serialize] *)

Section SerializeFacts.

Variable Timestamp : Type.

Implicit Types (record : VisitRecord Timestamp).

Local Abbreviation chars := list_ascii_of_string.

Lemma chars_app (a b : string) :
  chars (a ++ b)%string = chars a ++ chars b.
Proof. induction a as [|c a IH]; simpl; [|rewrite IH]; reflexivity. Qed.

Lemma chars_inj (a b : string) : chars a = chars b -> a = b.
Proof.
  intros H. rewrite <- (string_of_list_ascii_of_string a),
    <- (string_of_list_ascii_of_string b), H. reflexivity.
Qed.

(** [str(n)] is made of digits, after a sign when there is one. *)
Lemma str_int_chars (n : Z) (c : ascii) :
  In c (chars (str_int n)) -> In c (chars "0123456789-").
Proof.
  assert (U : forall d, In c (chars (DecimalString.NilEmpty.string_of_uint d))
                        -> In c (chars "0123456789-")).
  { induction d; simpl; intros H; try contradiction;
      (destruct H as [<-|H]; [simpl; auto 15 | apply IHd; exact H]). }
  unfold str_int. destruct (Z.to_int n) as [d|d]; simpl.
  - apply (U d).
  - intros [<-|H]; [simpl; auto 15 | apply (U d); exact H].
Qed.

Lemma str_int_inj (n m : Z) : str_int n = str_int m -> n = m.
Proof.
  unfold str_int. intros H.
  apply (f_equal DecimalString.NilEmpty.int_of_string) in H.
  rewrite !DecimalString.NilEmpty.isi in H. injection H as H.
  apply DecimalZ.to_int_inj. exact H.
Qed.

(** Two texts that agree past a mark neither has before it. *)
Lemma split_at_first (c : ascii) (d1 d2 t1 t2 : list ascii) :
  ~ In c d1 -> ~ In c d2 ->
  d1 ++ c :: t1 = d2 ++ c :: t2 -> d1 = d2 /\ t1 = t2.
Proof.
  revert d2. induction d1 as [|x d1 IH]; intros [|y d2] H1 H2 E;
    simpl in *.
  - injection E as ->. auto.
  - injection E as <- _. exfalso. apply H2. left. reflexivity.
  - injection E as -> _. exfalso. apply H1. left. reflexivity.
  - injection E as -> E.
    destruct (IH d2) as [-> ->]; auto.
Qed.

Lemma space_not_in_str_int (n : Z) : ~ In " "%char (rev (chars (str_int n))).
Proof.
  intros H. apply in_rev in H. apply str_int_chars in H.
  simpl in H. repeat (destruct H as [H|H]; [discriminate H|]). exact H.
Qed.

Lemma data_chars record :
  chars (Entry.data (serialize record)) =
  chars "Safari visit to " ++ chars (url record)
  ++ chars " (ID: " ++ chars (str_int (id record))
  ++ chars ", Visit ID: " ++ chars (str_int (visit_id record))
  ++ chars ")".
Proof.
  unfold serialize. cbn [Entry.data]. rewrite !chars_app. reflexivity.
Qed.

(** X12. [serialize] tells visits apart: records with the same entry have
    the same date, URL, id and visit id, whatever the URL holds. *)
Theorem serialize_injective record record' :
  serialize record = serialize record' ->
  isodate record = isodate record'
  /\ url record = url record'
  /\ id record = id record'
  /\ visit_id record = visit_id record'.
Proof.
  intros H.
  assert (Hiso := f_equal Entry.timestamp H).
  assert (Hdata := f_equal (fun e => chars (Entry.data e)) H).
  cbv beta in Hdata. rewrite !data_chars in Hdata.
  split; [exact Hiso|].
  apply app_inv_head in Hdata.
  apply (f_equal (@rev ascii)) in Hdata.
  rewrite !rev_app_distr in Hdata.
  rewrite <- !app_assoc in Hdata.
  cbn [chars rev app] in Hdata.
  injection Hdata as Hdata.
  apply split_at_first in Hdata as [Hv Hdata];
    try apply space_not_in_str_int.
  injection Hdata as Hdata.
  apply split_at_first in Hdata as [Hi Hdata];
    try apply space_not_in_str_int.
  injection Hdata as Hdata.
  apply (f_equal (@rev ascii)) in Hdata, Hi, Hv.
  rewrite !rev_involutive in Hdata, Hi, Hv.
  apply chars_inj in Hdata, Hi, Hv.
  apply str_int_inj in Hi, Hv. auto.
Qed.

End SerializeFacts.

(** ** [run] *)

Section LoaderFacts.

Variable Timestamp : Type.
Variable convert_mactime_to_unix : Timestamp -> option datetime.
Variable convert_timestamp_to_iso : option datetime -> string.
Variable URL_domain : string -> option string.
Variable ts_le : Timestamp -> Timestamp -> Prop.

Local Abbreviation item_of :=
  (item_of convert_mactime_to_unix convert_timestamp_to_iso).
Local Abbreviation items_of :=
  (items_of convert_mactime_to_unix convert_timestamp_to_iso).
Local Abbreviation run :=
  (run convert_mactime_to_unix convert_timestamp_to_iso).
Local Abbreviation check_indicators :=
  (check_indicators convert_mactime_to_unix URL_domain).

Implicit Types (s : Self Timestamp) (cur : list (Row Timestamp)).

Lemma items_of_map cur : items_of cur = map item_of cur.
Proof.
  unfold items_of.
  assert (G : forall acc,
             fold_left (fun items item => items ++ [item_of item]) cur acc =
             acc ++ map item_of cur).
  { induction cur as [|x cur IH]; intros acc; simpl.
    - rewrite app_nil_r. reflexivity.
    - rewrite IH, <- app_assoc. reflexivity. }
  apply (G []).
Qed.

Lemma run_outcome file_path cur s :
  run file_path cur s =
  mkOutcome (mkSelf (map item_of cur) (detected s) (indicators s))
            [FoundDatabase file_path;
             ExtractedTotal (Z.of_nat (List.length cur))]
            (Returned tt).
Proof.
  unfold run, bind, act, set_results. simpl.
  rewrite items_of_map, length_map. reflexivity.
Qed.

Lemma item_of_fields (row : Row Timestamp) :
  url (item_of row) = row_url row
  /\ visit_id (item_of row) = row_visit_id row
  /\ timestamp (item_of row) = row_visit_time row.
Proof. destruct row as [[[[[i0 i1] i2] i3] i4] i5]. auto. Qed.

(** X13. [run] returns with one record for each row of the query, in
    the order of the rows, as the new sequence of results, whatever the
    sequence was before; it logs the number of rows, and leaves the
    detections and the indicators alone. *)
Theorem run_loads_every_row_in_order file_path cur s :
  let o := run file_path cur s in
  completion o = Returned tt
  /\ List.length (results (final o)) = List.length cur
  /\ (forall i, nth_error (results (final o)) i =
                option_map item_of (nth_error cur i))
  /\ In (ExtractedTotal (Z.of_nat (List.length (results (final o)))))
        (trace o)
  /\ detected (final o) = detected s
  /\ indicators (final o) = indicators s.
Proof.
  cbv zeta. rewrite run_outcome. simpl.
  rewrite length_map. repeat split; auto.
  intros i. apply nth_error_map.
Qed.

(** X14. What [run] loads has the order and the keys of the store: when
    the rows come in the order of their visit times, the results are
    ascending; when no two rows have the same visit id, no two results
    have. *)
Theorem run_keeps_order_and_keys file_path cur s :
  StronglySorted
    (fun a b => ts_le (row_visit_time a) (row_visit_time b)) cur ->
  NoDup (map row_visit_id cur) ->
  ascending ts_le (results (final (run file_path cur s)))
  /\ NoDup (map visit_id (results (final (run file_path cur s)))).
Proof.
  rewrite run_outcome. simpl. intros Hs Hn. split.
  - clear Hn. unfold ascending. induction Hs as [|x cur _ IH Hx]; simpl.
    + constructor.
    + constructor; [exact IH|].
      apply Forall_forall. intros r Hr.
      apply in_map_iff in Hr as (y & <- & Hy).
      rewrite Forall_forall in Hx. specialize (Hx y Hy).
      destruct (item_of_fields x) as (_ & _ & ->).
      destruct (item_of_fields y) as (_ & _ & ->). exact Hx.
  - rewrite map_map.
    rewrite (map_ext _ row_visit_id); [exact Hn|].
    intros row. apply item_of_fields.
Qed.

Lemma filter_map_commute {A B} (f : A -> B) (p : B -> bool) l :
  filter p (map f l) = map f (filter (fun x => p (f x)) l).
Proof.
  induction l as [|x l IH]; simpl; [reflexivity|].
  rewrite IH. destruct (p (f x)); reflexivity.
Qed.

(** X15. [run] then [check_indicators]: when the visit time of every row
    converts, the check returns and the detections gain the records of
    the rows whose URL the indicators match, in the order of the rows. *)
Theorem run_then_check_detects_matching_rows file_path cur s ind :
  indicators s = Some ind ->
  Forall (fun row => convert_mactime_to_unix (row_visit_time row) <> None)
         cur ->
  let loaded := final (run file_path cur s) in
  completion (check_indicators loaded) = Returned tt
  /\ detected (final (check_indicators loaded)) =
     detected s
     ++ map item_of (filter (fun row => check_domain ind (row_url row)) cur).
Proof.
  intros Hi Hall. cbv zeta. rewrite run_outcome. cbn [final].
  assert (Hc : completion
                 (_find_injections convert_mactime_to_unix URL_domain
                    (mkSelf (map item_of cur) (detected s) (indicators s)))
               = Returned tt).
  { apply find_injections_returns. cbn [results].
    apply Forall_forall. intros r Hr.
    apply in_map_iff in Hr as (row & <- & Hrow).
    rewrite Forall_forall in Hall.
    destruct (item_of_fields row) as (_ & _ & ->). apply Hall. exact Hrow. }
  rewrite check_indicators_run, Hc.
  cbn [indicators results detected]. rewrite Hi.
  cbv zeta. cbn [final completion detected]. split; [reflexivity|].
  f_equal. rewrite filter_map_commute. f_equal.
  apply filter_ext. intros row.
  destruct (item_of_fields row) as (-> & _ & _). reflexivity.
Qed.

End LoaderFacts.

(** ** The whole of [check_indicators] *)

Section CheckOutcome.

Variable Timestamp : Type.
Variable convert_mactime_to_unix : Timestamp -> option datetime.
Variable URL_domain : string -> option string.


End CheckOutcome.

(** ** The further properties on the concrete store *)

Lemma store_times_convert (rs : list (VisitRecord Store.Timestamp)) :
  convertible Store.convert_mactime_to_unix Store.URL_domain rs.
Proof. intros o r _ _ _. discriminate. Defined.

Lemma chain_analysis_logs_the_reports_witness :
  Store.find_injections Store.tie_ac =
  mkOutcome (Store.self_of Store.tie_ac None)
    [Logged (LogInfo (Some "a.com") (Some "b.com")); Logged (LogWarning 300);
     Logged (LogInfo (Some "c.com") (Some "d.com")); Logged (LogWarning 400)]
    (Returned tt).
Proof.
  exact (chain_analysis_logs_the_reports _ Store.convert_mactime_to_unix
           Store.URL_domain (Store.self_of Store.tie_ac None)
           (store_times_convert Store.tie_ac)).
Defined.

Lemma unconverted_time_ends_the_check_witness :
  let s := Store.self_of Samples.unset_then_match (Some Store.knows_b) in
  completion (check_indicators Samples.partial_convert Store.URL_domain s) =
  Raised TypeError
  /\ final (check_indicators Samples.partial_convert Store.URL_domain s) = s
  /\ appended
       (trace (check_indicators Samples.partial_convert Store.URL_domain s))
     = [].
Proof.
  apply (unconverted_time_ends_the_check _ Samples.partial_convert
           Store.URL_domain _ Samples.origin_unset Store.redirect_b).
  - left. reflexivity.
  - right. left. reflexivity.
  - reflexivity.
  - reflexivity.
Defined.

Lemma unique_visit_ids_bound_the_log_witness :
  (List.length (trace (Store.find_injections Store.tie_ac)) <= 2 * 4)%nat.
Proof.
  apply (unique_visit_ids_bound_the_log _ Store.convert_mactime_to_unix
           Store.URL_domain (Store.self_of Store.tie_ac None)).
  vm_compute.
  repeat (apply NoDup_cons; [simpl; intuition discriminate|]).
  apply NoDup_nil.
Defined.


Lemma second_check_appends_again_witness :
  detected
    (final (check_indicators Store.convert_mactime_to_unix Store.URL_domain
              (final (Store.check Store.three_visits
                        (Some Store.knows_b))))) =
  [Store.redirect_b; Store.redirect_b].
Proof.
  exact (proj2 (proj2
    (second_check_appends_again _ Store.convert_mactime_to_unix
       Store.URL_domain
       (Store.self_of Store.three_visits (Some Store.knows_b))
       Store.knows_b eq_refl eq_refl))).
Defined.

Lemma elevated_iff_sub_second_within_a_day_witness :
  (exists ms, In (Logged (LogWarning ms))
                 (trace (Store.inspect_pair Store.origin_a Store.redirect_b
                           Store.fast_redirect)))
  <-> 300000 < 1000000.
Proof.
  apply (elevated_iff_sub_second_within_a_day _
           Store.convert_mactime_to_unix Store.URL_domain
           Store.origin_a Store.redirect_b
           (Store.self_of Store.fast_redirect None) 300000).
  - reflexivity.
  - reflexivity.
  - lia.
Defined.

Lemma serialize_injective_witness :
  url Store.origin_a = url Store.origin_lost
  /\ id Store.origin_a = id Store.origin_lost
  /\ visit_id Store.origin_a = visit_id Store.origin_lost.
Proof.
  apply (serialize_injective _ Store.origin_a Store.origin_lost).
  reflexivity.
Defined.

Lemma run_keeps_order_and_keys_witness :
  ascending Store.ts_le
    (results (final (Samples.load Samples.three_rows
                       (Store.self_of Store.fast_redirect None))))
  /\ NoDup (map visit_id
              (results (final (Samples.load Samples.three_rows
                                 (Store.self_of Store.fast_redirect None))))).
Proof.
  apply (run_keeps_order_and_keys _ Store.convert_mactime_to_unix
           Samples.convert_timestamp_to_iso Store.ts_le).
  - unfold Samples.three_rows, Store.ts_le.
    repeat constructor; simpl; unfold Store.T0; lia.
  - vm_compute.
    repeat (apply NoDup_cons; [simpl; intuition discriminate|]).
    apply NoDup_nil.
Defined.

Lemma run_then_check_detects_matching_rows_witness :
  detected
    (final (check_indicators Store.convert_mactime_to_unix Store.URL_domain
              (final (Samples.load Samples.three_rows
                        (Store.self_of Store.fast_redirect
                           (Some Store.knows_b)))))) =
  [item_of Store.convert_mactime_to_unix Samples.convert_timestamp_to_iso
     (2, "https://b.com", 2, Store.T0 + 300000, None, None)].
Proof.
  apply (run_then_check_detects_matching_rows _
           Store.convert_mactime_to_unix Samples.convert_timestamp_to_iso
           Store.URL_domain "History.db" Samples.three_rows
           (Store.self_of Store.fast_redirect (Some Store.knows_b))
           Store.knows_b eq_refl).
  repeat constructor; discriminate.
Defined.

